(** * vispy/visuals/line.py: the LineVisual and its shader hooks

    A shallow embedding of [LineVisual] (set_data, the transform property,
    _build_vbo, _build_program, paint, _get_position_function,
    _get_color_func) together with the collaborators it drives.

    - Python methods are computations in a state-and-exception monad over
      the pair (self, graphics context).
    - [self._opts] is a dict with four fixed keys of different value types;
      it is a record with one field per key.
    - numpy arrays are described by their shape and a flat payload; they
      have at least one axis, as in the docstring of set_data
      ("(N, 2-3) array", "(3-4) or (N, 3-4) array").  An assignment into a
      field of a structured array raises ValueError when the assigned shape
      does not broadcast to the field, and stores a float32 copy otherwise.
    - set_data keeps the arrays it is given, not copies of them, so their
      owner can still write into them.  Such a write is a step of its own:
      it changes the values, not the shape, of the array the visual holds,
      and leaves the copies numpy has made as they were.
    - An exception ends the run: the state an exception leaves behind is
      not followed further.
    - Numbers that the code only passes around (the width, the RGBA
      components, the depth 0.0) are rationals.
    - [CompositeProgram], [FunctionTemplate], [FragmentFunction], the
      transforms and gloo live in modules whose code is not in this
      excerpt; each of their definitions says where it is modelled from. *)

From Stdlib Require Import Ascii String List QArith.
From stdpp Require Import gmap strings list fin_maps.

(** ** Python results *)

Module Py.

Inductive exn :=
| AttributeError
| TypeError
| KeyError
| IndexError
| ValueError
| UnboundPlaceholder
| UnknownHook
| IncompleteProgram
| ShaderCompileError
| ShaderLinkError
| InvalidPrimitive.

Inductive result (A : Type) :=
| Ok (a : A)
| Raise (e : exn).
Arguments Ok {A} a.
Arguments Raise {A} e.

End Py.
Import Py.

(** ** numpy arrays, by shape *)

Module Numpy.

(** An ndarray with at least one axis: [nd_len] is the length of the first
    axis (what [len(a)] returns), [nd_inner] the remaining axes. *)
Record ndarray := {
  nd_len : nat;
  nd_inner : list nat;
  nd_items : list Q
}.

Definition shape (a : ndarray) : list nat := nd_len a :: nd_inner a.
Definition ndim (a : ndarray) : nat := length (shape a).
Definition len (a : ndarray) : nat := nd_len a.

(** [a.shape[-1]] and [a.shape[:-1]]. *)
Definition shape_last (a : ndarray) : nat := default 0 (last (shape a)).
Definition shape_init (a : ndarray) : list nat := removelast (shape a).

(** [a[...] = items]: the array after a write in place.  The shape
    stays. *)
Definition written (items : list Q) (a : ndarray) : ndarray :=
  {| nd_len := nd_len a; nd_inner := nd_inner a; nd_items := items |}.

(** One entry [(name, np.float32, count)] of a structured dtype. *)
Record field := { field_name : string; field_count : nat }.

(** What an assignment leaves in a field: numpy's copy of the values of
    [copied_from], converted to np.float32 and broadcast to
    [stored_shape]. *)
Record column := {
  copied_from : ndarray;
  stored_shape : list nat
}.

(** A structured array: [np.empty(shape, typ)] followed by column
    assignments. *)
Record recarray := {
  rec_shape : list nat;
  rec_dtype : list field;
  rec_columns : gmap string column
}.

Definition empty (shp : list nat) (typ : list field) : recarray :=
  {| rec_shape := shp; rec_dtype := typ; rec_columns := ∅ |}.

Definition find_field (name : string) (typ : list field) : option field :=
  List.find (fun f => String.eqb (field_name f) name) typ.

(** ['name' in data.dtype.fields] *)
Definition has_field (name : string) (d : recarray) : bool :=
  match find_field name (rec_dtype d) with Some _ => true | None => false end.

(** The axes a field of [count] items adds to the array: numpy (1.x) reads
    a count of 1 as a scalar field, which adds none. *)
Definition subshape (count : nat) : list nat :=
  if count =? 1 then [] else [count].

(** The shape of the view [data[name]] on a field of [count] items of an
    array of shape [shp]. *)
Definition view_shape (shp : list nat) (count : nat) : list nat :=
  shp ++ subshape count.

(** Leading axes of length 1 are dropped from the assigned shape while it
    has more axes than the target. *)
Fixpoint strip_ones (excess : nat) (src : list nat) : list nat :=
  match excess, src with
  | S k, 1 :: rest => strip_ones k rest
  | _, _ => src
  end.

(** Axis by axis from the last one: the lengths agree or the assigned one
    is 1. *)
Fixpoint stretches (src dst : list nat) : bool :=
  match src, dst with
  | [], _ => true
  | x :: src', y :: dst' => ((x =? y) || (x =? 1)) && stretches src' dst'
  | _ :: _, [] => false
  end.

(** Whether an array of shape [src] can be assigned to a view of shape
    [dst]; when it cannot numpy raises ValueError ("could not broadcast
    input array"). *)
Definition assignable (src dst : list nat) : bool :=
  stretches (rev (strip_ones (length src - length dst) src)) (rev dst).

(** [data[name] = a] *)
Definition setitem (name : string) (a : ndarray) (d : recarray)
  : result recarray :=
  match find_field name (rec_dtype d) with
  | Some f =>
      let target := view_shape (rec_shape d) (field_count f) in
      if assignable (shape a) target
      then Ok {| rec_shape := rec_shape d;
                 rec_dtype := rec_dtype d;
                 rec_columns :=
                   <[name := {| copied_from := a; stored_shape := target |}]>
                     (rec_columns d) |}
      else Raise ValueError
  | None => Raise ValueError
  end.

(** [data[name].shape] *)
Definition field_shape (name : string) (d : recarray) : result (list nat) :=
  match find_field name (rec_dtype d) with
  | Some f => Ok (view_shape (rec_shape d) (field_count f))
  | None => Raise ValueError
  end.

(** [shp[-1]] on a shape tuple. *)
Definition last_axis (shp : list nat) : result nat :=
  match last shp with
  | Some n => Ok n
  | None => Raise IndexError
  end.

End Numpy.
Import Numpy.

(** ** GLSL prototypes of a master template *)

Module GLSL.

Definition newline : ascii := ascii_of_nat 10.
Definition space : ascii := ascii_of_nat 32.

(** Splitting a text at a separator character. *)
Fixpoint split_on (sep : ascii) (s : string) : list string :=
  match s with
  | EmptyString => [EmptyString]
  | String c rest =>
      if Ascii.eqb c sep
      then EmptyString :: split_on sep rest
      else match split_on sep rest with
           | [] => [String c EmptyString]
           | w :: ws => String c w :: ws
           end
  end.

Fixpoint strip_left (s : string) : string :=
  match s with
  | String c rest => if Ascii.eqb c space then strip_left rest else s
  | EmptyString => EmptyString
  end.

Definition strip (s : string) : string :=
  String.rev (strip_left (String.rev (strip_left s))).

Definition nonempty (s : string) : bool := negb (String.eqb s EmptyString).

Definition words (s : string) : list string :=
  List.filter nonempty (split_on space s).

Definition ends_with (suffix s : string) : bool :=
  String.prefix (String.rev suffix) (String.rev s).

(** Drops the last [n] characters. *)
Definition drop_end (n : nat) (s : string) : string :=
  String.substring 0 (String.length s - n) s.

(** Text before and after the first occurrence of a character. *)
Fixpoint break_at (c : ascii) (s : string) : option (string * string) :=
  match s with
  | EmptyString => None
  | String x rest =>
      if Ascii.eqb x c then Some (EmptyString, rest)
      else match break_at c rest with
           | Some (before, after) => Some (String x before, after)
           | None => None
           end
  end.

(** A function prototype [rtype name(args);]. *)
Record prototype := {
  proto_rtype : string;
  proto_name : string;
  proto_args : list string
}.

(** [f(void)] and [f()] both declare no argument. *)
Definition arguments (s : string) : list string :=
  List.filter (fun a => nonempty a && negb (String.eqb a "void"))
              (List.map strip (split_on ","%char s)).

(** A line declares a prototype when it is not a comment, ends in [");"],
    and has exactly a return type and a name before the parenthesis. *)
Definition prototype_of_line (line : string) : option prototype :=
  let l := strip line in
  if String.prefix "//" l then None
  else if negb (ends_with ");" l) then None
  else match break_at "("%char l with
       | Some (head, tail) =>
           match words head with
           | [rtype; name] =>
               Some {| proto_rtype := rtype;
                       proto_name := name;
                       proto_args := arguments (drop_end 2 tail) |}
           | _ => None
           end
       | None => None
       end.

Definition prototypes (text : string) : list prototype :=
  omap prototype_of_line (split_on newline text).

End GLSL.
Import GLSL.

(** ** gloo and the GL context *)

Module Gloo.

(** Modelled from the spec: gloo.VertexBuffer, the handle that
    [createBuffer(data)] of the upload interface returns: an object of its
    own ([vb_id] tells two buffers apart) that wraps the structured array
    it was created from. *)
Record VertexBuffer := { vb_id : nat; vb_data : recarray }.

(** Modelled from the spec: what the graphics driver answers when it is
    given a shader to compile and link (section 6, "compileShader(stage,
    source) -> handle | error", "linkProgram(...) -> handle | error"). *)
Inductive verdict :=
| Accepted
| CompileFails
| LinkFails.

(** The calls the Visual makes on gloo, gl and its composite program, and
    the compilation a draw triggers, in the order they happen. *)
Inductive call :=
| VertexBufferNew (data : recarray)
| ProgramNew
| SetHook (name : string)
| Compile
| LineWidth (w : Q)
| Draw (mode : string) (width_state : Q).

(** The GL context: the rasterization line width in effect, the journal
    of calls, oldest first, the number of vertex buffers created so far,
    and the driver's verdict on a program that contains a given transform
    snippet. *)
Record Context := {
  line_width : Q;
  journal : list call;
  created : nat;
  driver : string -> verdict
}.

Definition record (c : call) (ctx : Context) : Context :=
  {| line_width := line_width ctx; journal := journal ctx ++ [c];
     created := created ctx; driver := driver ctx |}.

(** [gl.glLineWidth(w)] *)
Definition glLineWidth (w : Q) (ctx : Context) : Context :=
  {| line_width := w; journal := journal ctx ++ [LineWidth w];
     created := created ctx; driver := driver ctx |}.

(** [gloo.VertexBuffer(data)]: a new buffer object. *)
Definition new_buffer (data : recarray) (ctx : Context)
  : VertexBuffer * Context :=
  ({| vb_id := created ctx; vb_data := data |},
   {| line_width := line_width ctx;
      journal := journal ctx ++ [VertexBufferNew data];
      created := S (created ctx); driver := driver ctx |}).

(** The primitive kinds of OpenGL ES 2.0. *)
Definition primitive_kinds : list string :=
  ["POINTS"; "LINES"; "LINE_STRIP"; "LINE_LOOP";
   "TRIANGLES"; "TRIANGLE_STRIP"; "TRIANGLE_FAN"].

(** What a function instance can hold in a value slot. *)
Inductive staged_value :=
| PyNone
| Scalar (q : Q)
| Array (a : ndarray)
| Buffer (vbo : VertexBuffer)
| BufferField (vbo : VertexBuffer) (name : string).

(** [vbo[name]]: the view of one field of the buffer, as line.py takes it
    for 'pos' and 'color'. *)
Definition getitem (name : string) (vbo : VertexBuffer) : result staged_value :=
  if has_field name (vb_data vbo)
  then Ok (BufferField vbo name)
  else Raise KeyError.

End Gloo.
Import Gloo.

(** ** Transforms *)

Module Transforms.

(** Modelled from the spec: the transform collaborator of section 6, which
    "supplies a GLSL snippet implementing map_local_to_nd(vec4) -> vec4";
    NullTransform is the class line.py imports as the default. *)
Inductive Transform :=
| NullTransform
| GLSLTransform (map_snippet : string).

End Transforms.
Import Transforms.

(** ** The composition engine *)

Module Composite.

(** Modelled from the spec: the Function Template of section 2, "a
    parameterized shader-source snippet with named placeholders"; the fields
    are the arguments line.py constructs it with. *)
Record FunctionTemplate := {
  tpl_source : string;
  var_names : list string
}.

(** Modelled from the spec: the two-stage function of section 4.3, made of
    "a vertex-stage snippet, a fragment-stage snippet, and a list of Linked
    Variable Pairs" (GLSL type, vertex-stage name, fragment-stage name). *)
Record FragmentFunction := {
  frag_func : FunctionTemplate;
  vertex_post : FunctionTemplate;
  link_vars : list (string * string * string)
}.

(** Modelled from the spec: the Variable Binding of section 3, "a triple
    (storage class, GLSL type, generated unique name)". *)
Definition role : Type := string * string * string.

Definition storage_class (r : role) : string := r.1.1.
Definition glsl_type (r : role) : string := r.1.2.
Definition generated_name (r : role) : string := r.2.

(** What an instance was bound from. *)
Inductive origin :=
| OfTemplate (t : FunctionTemplate)
| OfFragment (f : FragmentFunction)
| OfTransform (tr : Transform).

(** Modelled from the spec: the Function Instance of section 3: a template,
    "a mapping from each declared placeholder to a Variable Binding" and "a
    CPU-side value slot keyed by generated name", under the name it was
    bound with. *)
Record FunctionInstance := {
  fn_origin : origin;
  fn_name : string;
  fn_roles : gmap string role;
  fn_slots : gmap string staged_value
}.

Definition assigned (kwargs : gmap string role) (v : string) : bool :=
  bool_decide (is_Some (kwargs !! v)).

(** Modelled from the spec: FunctionTemplate.bind, section 4.1:
    "bind(name, **role_assignments) -> Function Instance ... fails with
    UnboundPlaceholder if any declared name lacks an assignment". *)
Definition bind (t : FunctionTemplate) (name : string)
    (kwargs : gmap string role) : result FunctionInstance :=
  if forallb (assigned kwargs) (var_names t)
  then Ok {| fn_origin := OfTemplate t; fn_name := name;
             fn_roles := kwargs; fn_slots := ∅ |}
  else Raise UnboundPlaceholder.

Definition linked_names (f : FragmentFunction) : list string :=
  flat_map (fun l => [l.1.2; l.2]) (link_vars f).

Definition is_linked (f : FragmentFunction) (v : string) : bool :=
  existsb (String.eqb v) (linked_names f).

(** Modelled from the spec: the bind-like construction of a two-stage
    function, section 4.3: the linked pairs are allocated by the program
    ("exactly one varying declaration per linked pair"), so the caller
    assigns the declared names that are not linked. *)
Definition bind_fragment (f : FragmentFunction) (name : string)
    (kwargs : gmap string role) : result FunctionInstance :=
  if forallb (fun v => is_linked f v || assigned kwargs v)
             (var_names (vertex_post f) ++ var_names (frag_func f))
  then Ok {| fn_origin := OfFragment f; fn_name := name;
             fn_roles := kwargs; fn_slots := ∅ |}
  else Raise UnboundPlaceholder.

(** Modelled from the spec: Transform.bind_map, section 6: the transform
    is "just another bindable Function Instance for the map_local_to_nd
    hook". *)
Definition bind_map (tr : Transform) (name : string) : FunctionInstance :=
  {| fn_origin := OfTransform tr; fn_name := name;
     fn_roles := ∅; fn_slots := ∅ |}.

(** Modelled from the spec: the value-slot interface of section 4.2,
    [instance[generated_name] = value]; nothing reaches the GPU here. *)
Definition stage (gname : string) (v : staged_value) (f : FunctionInstance)
  : FunctionInstance :=
  {| fn_origin := fn_origin f; fn_name := fn_name f;
     fn_roles := fn_roles f; fn_slots := <[gname := v]> (fn_slots f) |}.

(** Modelled from the spec: the Composite Program of sections 3 and 4.4:
    the master templates, the hook bindings and whether a compiled handle
    is cached. *)
Record CompositeProgram := {
  vmain : string;
  fmain : string;
  hooks : gmap string FunctionInstance;
  compiled : bool
}.

(** [CompositeProgram(vmain=..., fmain=...)]: nothing bound, nothing
    compiled. *)
Definition create (vmain fmain : string) : CompositeProgram :=
  {| vmain := vmain; fmain := fmain; hooks := ∅; compiled := false |}.

(** Modelled from the spec: a Hook, section 3, is "a named call site in
    the master vertex/fragment template ... with a fixed function signature
    (return type, argument types)"; the templates of line.py declare each
    of them as a GLSL prototype. *)
Definition declared_hooks (p : CompositeProgram) : list prototype :=
  prototypes (vmain p) ++ prototypes (fmain p).

Definition is_declared (name : string) (p : CompositeProgram) : bool :=
  existsb (fun h => String.eqb (proto_name h) name) (declared_hooks p).

(** Modelled from the spec: set_hook, section 4.4: "fails with UnknownHook
    if hook_name is not declared in the master templates; overwrites any
    prior binding for that hook", and "any call to set_hook ... discards
    the compiled handle". *)
Definition set_hook (name : string) (f : FunctionInstance)
    (p : CompositeProgram) : result CompositeProgram :=
  if is_declared name p
  then Ok {| vmain := vmain p; fmain := fmain p;
             hooks := <[name := f]> (hooks p); compiled := false |}
  else Raise UnknownHook.

(** Modelled from the spec: section 6 lets the hook that returns nothing
    stay unbound ("an optional post_hook() with no return"). *)
Definition optional (h : prototype) : bool :=
  String.eqb (proto_rtype h) "void".

Definition bound (p : CompositeProgram) (h : prototype) : bool :=
  bool_decide (is_Some (hooks p !! proto_name h)).

Definition buildable (p : CompositeProgram) : bool :=
  forallb (fun h => optional h || bound p h) (declared_hooks p).

Definition with_compiled (p : CompositeProgram) : CompositeProgram :=
  {| vmain := vmain p; fmain := fmain p; hooks := hooks p; compiled := true |}.

(** Modelled from the spec: the source a bound instance contributes is
    the driver's to judge.  The templates of line.py and NullTransform are
    taken to be valid GLSL; for a transform given by its snippet the
    driver of the context answers. *)
Definition instance_verdict (drv : string -> verdict) (f : FunctionInstance)
  : verdict :=
  match fn_origin f with
  | OfTransform (GLSLTransform snippet) => drv snippet
  | _ => Accepted
  end.

Definition hook_verdict (drv : string -> verdict) (p : CompositeProgram)
    (h : prototype) : verdict :=
  match hooks p !! proto_name h with
  | Some f => instance_verdict drv f
  | None => Accepted
  end.

Fixpoint first_failure (vs : list verdict) : verdict :=
  match vs with
  | [] => Accepted
  | Accepted :: rest => first_failure rest
  | v :: _ => v
  end.

(** The driver's answer to the program stitched from the bound hooks, in
    the order the templates declare them. *)
Definition build_verdict (drv : string -> verdict) (p : CompositeProgram)
  : verdict :=
  first_failure (List.map (hook_verdict drv p) (declared_hooks p)).

(** Modelled from the spec: build, section 4.4: it requires a bound
    instance for the declared hooks "(fails with IncompleteProgram
    otherwise)", "fails with ShaderCompileError ... if compilation fails,
    or ShaderLinkError if linking fails", and on success "caches the
    compiled program handle". *)
Definition build (p : CompositeProgram) (ctx : Context)
  : result (CompositeProgram * Context) :=
  if negb (buildable p) then Raise IncompleteProgram
  else match build_verdict (driver ctx) p with
       | Accepted => Ok (with_compiled p, record Compile ctx)
       | CompileFails => Raise ShaderCompileError
       | LinkFails => Raise ShaderLinkError
       end.

(** Modelled from the spec: draw, section 4.4: it "requires compiled state
    (triggers build() if unbuilt)", "fails with InvalidPrimitive if the
    graphics layer rejects the topology", and issues the draw call, which
    runs under the line width in effect. *)
Definition draw (mode : string) (p : CompositeProgram) (ctx : Context)
  : result (CompositeProgram * Context) :=
  match (if compiled p then Ok (p, ctx) else build p ctx) with
  | Ok (p', ctx') =>
      if existsb (String.eqb mode) primitive_kinds
      then Ok (p', record (Draw mode (line_width ctx')) ctx')
      else Raise InvalidPrimitive
  | Raise e => Raise e
  end.

End Composite.
Import Composite.

(** ** visuals/line.py *)

Module Line.

Definition vertex_shader : string := "
// local_position function must return the current vertex position
// in the Visual's local coordinate system.
vec4 local_position(void);

// mapping function that transforms from the Visual's local coordinate
// system to normalized device coordinates.
vec4 map_local_to_nd(vec4);

// generic hook for executing code after the vertex position has been set
void post_hook();

void main(void) {
    vec4 local_pos = local_position();
    vec4 nd_pos = map_local_to_nd(local_pos);
    gl_Position = nd_pos;
    
    post_hook();
}
".

Definition fragment_shader : string := "
// Must return the color for this fragment
// or discard.
vec4 frag_color();

void main(void) {
    gl_FragColor = frag_color();
}
".

(** generate local coordinate from xy (vec2) attribute and z (float)
    uniform *)
Definition XYInputFunc : FunctionTemplate :=
  {| tpl_source := "
vec4 $func_name() {
    return vec4($xy_pos, $z_pos, 1.0);
}
";
     var_names := ["xy_pos"; "z_pos"] |}.

(** generate local coordinate from xyz (vec3) attribute *)
Definition XYZInputFunc : FunctionTemplate :=
  {| tpl_source := "
vec4 $func_name() {
    return vec4($xyz_pos, 1.0);
}
";
     var_names := ["xyz_pos"] |}.

(** vertex variable 'output' and fragment variable 'rgba' are both bound
    to the same vec4 varying. *)
Definition RGBAAttributeFunc : FragmentFunction :=
  {| frag_func :=
       {| tpl_source := "
        vec4 $func_name() {
            return $rgba;
        }
        ";
          var_names := ["rgba"] |};
     vertex_post :=
       {| tpl_source := "
        void $func_name() {
            $output = $input;
        }
        ";
          var_names := ["input"; "output"] |};
     link_vars := [("vec4", "output", "rgba")] |}.

Definition RGBAUniformFunc : FunctionTemplate :=
  {| tpl_source := "
vec4 $func_name() {
    return $rgba;
}
";
     var_names := ["rgba"] |}.

(** The color option: a sequence such as [(1, 1, 1, 1)] or an ndarray. *)
Inductive color_value :=
| ColorTuple (c : list Q)
| ColorArray (a : ndarray).

(** [isinstance(color, np.ndarray) and color.ndim > 1] *)
Definition color_is_array (color : color_value) : bool :=
  match color with
  | ColorArray a => 1 <? ndim a
  | ColorTuple _ => false
  end.

(** [color.shape[-1]]; a tuple has no attribute shape. *)
Definition color_shape_last (color : color_value) : result nat :=
  match color with
  | ColorArray a => Ok (shape_last a)
  | ColorTuple _ => Raise AttributeError
  end.

(** [np.array(color)] *)
Definition np_array (color : color_value) : ndarray :=
  match color with
  | ColorArray a => a
  | ColorTuple c => {| nd_len := length c; nd_inner := []; nd_items := c |}
  end.

(** The dict [self._opts], one field per key. *)
Module opts.
Record dict := {
  pos : option ndarray;
  color : color_value;
  width : Q;
  transform : Transform
}.
End opts.

Record LineVisual := {
  _opts : opts.dict;
  _program : option CompositeProgram;
  _vbo : option VertexBuffer;
  (** [None] until _build_vbo has assigned the attribute *)
  _data : option recarray
}.

(** What a method runs in: the object and the GL context. *)
Record World := {
  self : LineVisual;
  gl : Context
}.

(** *** Methods as computations *)

Definition M (A : Type) : Type := World -> result (A * World).

Definition ret {A} (a : A) : M A := fun w => Ok (a, w).

Definition bind {A B} (m : M A) (k : A -> M B) : M B :=
  fun w => match m w with
           | Ok (a, w') => k a w'
           | Raise e => Raise e
           end.

Definition lift {A} (r : result A) : M A :=
  fun w => match r with
           | Ok a => Ok (a, w)
           | Raise e => Raise e
           end.

(** Reading through a reference that may be [None] (or, for [self._data],
    an attribute not assigned yet); [e] is what Python raises then. *)
Definition deref {A} (e : exn) (o : option A) : M A :=
  fun w => match o with
           | Some a => Ok (a, w)
           | None => Raise e
           end.

Definition get {A} (f : LineVisual -> A) : M A :=
  fun w => Ok (f (self w), w).

Definition update (f : LineVisual -> LineVisual) : M unit :=
  fun w => Ok (tt, {| self := f (self w); gl := gl w |}).

(** A call on a collaborator, seen as a change of the context. *)
Definition on_context (f : Context -> Context) : M unit :=
  fun w => Ok (tt, {| self := self w; gl := f (gl w) |}).

Declare Scope py_scope.
Delimit Scope py_scope with py.
Notation "'do' x <- c ; k" := (bind c (fun x => k))
  (at level 10, x name, c at level 100, k at level 200) : py_scope.
Notation "'run' c ; k" := (bind c (fun _ => k))
  (at level 10, c at level 100, k at level 200) : py_scope.
Notation "'when' b 'then' c" := (if b then c else ret tt)
  (at level 100, b at level 99, c at level 100) : py_scope.
Local Open Scope py_scope.

(** *** Attribute and item assignments *)

Definition assign_opts (o : opts.dict) : M unit :=
  update (fun v => {| _opts := o; _program := _program v;
                      _vbo := _vbo v; _data := _data v |}).

Definition assign_program (p : option CompositeProgram) : M unit :=
  update (fun v => {| _opts := _opts v; _program := p;
                      _vbo := _vbo v; _data := _data v |}).

Definition assign_vbo (b : option VertexBuffer) : M unit :=
  update (fun v => {| _opts := _opts v; _program := _program v;
                      _vbo := b; _data := _data v |}).

Definition assign_data (d : recarray) : M unit :=
  update (fun v => {| _opts := _opts v; _program := _program v;
                      _vbo := _vbo v; _data := Some d |}).

Definition opts_set_pos (p : ndarray) : M unit :=
  do o <- get _opts;
  assign_opts {| opts.pos := Some p; opts.color := opts.color o;
                 opts.width := opts.width o;
                 opts.transform := opts.transform o |}.

Definition opts_set_color (c : color_value) : M unit :=
  do o <- get _opts;
  assign_opts {| opts.pos := opts.pos o; opts.color := c;
                 opts.width := opts.width o;
                 opts.transform := opts.transform o |}.

Definition opts_set_width (w : Q) : M unit :=
  do o <- get _opts;
  assign_opts {| opts.pos := opts.pos o; opts.color := opts.color o;
                 opts.width := w;
                 opts.transform := opts.transform o |}.

Definition opts_set_transform (tr : Transform) : M unit :=
  do o <- get _opts;
  assign_opts {| opts.pos := opts.pos o; opts.color := opts.color o;
                 opts.width := opts.width o;
                 opts.transform := tr |}.

(** [gloo.VertexBuffer(data)] *)
Definition gloo_VertexBuffer (data : recarray) : M VertexBuffer :=
  fun w => let (vbo, ctx) := new_buffer data (gl w) in
           Ok (vbo, {| self := self w; gl := ctx |}).

(** [self._data[name] = a] *)
Definition data_setitem (name : string) (a : ndarray) : M unit :=
  do d <- get _data;
  do d <- deref AttributeError d;
  do d <- lift (Numpy.setitem name a d);
  assign_data d.

(** [self._program.set_hook(name, func)] *)
Definition program_set_hook (name : string) (func : FunctionInstance)
  : M unit :=
  do p <- get _program;
  do p <- deref AttributeError p;
  run on_context (record (SetHook name));
  do p <- lift (set_hook name func p);
  assign_program (Some p).

(** [self._program.draw(mode)] *)
Definition program_draw (mode : string) : M unit :=
  do p <- get _program;
  do p <- deref AttributeError p;
  fun w => match draw mode p (gl w) with
           | Ok (p', ctx) =>
               assign_program (Some p') {| self := self w; gl := ctx |}
           | Raise e => Raise e
           end.

(** *** class LineVisual *)

Definition set_data (pos : option ndarray) (color : option color_value)
    (width : option Q) : M unit :=
  run match pos with Some p => opts_set_pos p | None => ret tt end;
  run match color with Some c => opts_set_color c | None => ret tt end;
  run match width with Some w => opts_set_width w | None => ret tt end;
  (* might need to rebuild vbo or program.. this could be made more
     clever. *)
  run assign_vbo None;
  assign_program None.

(** The dict literal __init__ assigns to [self._opts]. *)
Definition defaults : opts.dict :=
  {| opts.pos := None;
     opts.color := ColorTuple [1%Q; 1%Q; 1%Q; 1%Q];
     opts.width := 1%Q;
     opts.transform := NullTransform |}.

Definition __init__ (pos : option ndarray) (color : option color_value)
    (width : option Q) : Context -> result (unit * World) :=
  fun ctx =>
    set_data pos color width
      {| self := {| _opts := defaults;
                    _program := None;
                    _vbo := None;
                    _data := None |};
         gl := ctx |}.

(** The transform property: getter and setter. *)
Definition transform : M Transform :=
  do o <- get _opts; ret (opts.transform o).

Definition set_transform (tr : Transform) : M unit :=
  run opts_set_transform tr;
  assign_program None.

Definition _build_vbo : M unit :=
  (* Construct complete data array with position and optionally color *)
  do o <- get _opts;
  do pos <- deref AttributeError (opts.pos o);
  let typ := [{| field_name := "pos"; field_count := shape_last pos |}] in
  let color := opts.color o in
  let color_is_array := color_is_array color in
  do typ <- (if color_is_array
             then do n <- lift (color_shape_last color);
                  ret (typ ++ [{| field_name := "color"; field_count := n |}])
             else ret typ);
  run assign_data (Numpy.empty (shape_init pos) typ);
  run data_setitem "pos" pos;
  run (when color_is_array then data_setitem "color" (np_array color));
  (* convert to vertex buffer *)
  do d <- get _data;
  do d <- deref AttributeError d;
  do vbo <- gloo_VertexBuffer d;
  assign_vbo (Some vbo).

Definition _get_position_function : M FunctionInstance :=
  (* select the correct shader function to read in vertex data based on
     position array shape *)
  do d <- get _data;
  do d <- deref AttributeError d;
  do shp <- lift (field_shape "pos" d);
  do components <- lift (last_axis shp);
  if components =? 2
  then
    do func <- lift (Composite.bind XYInputFunc "local_position"
                {[ "xy_pos" := ("attribute", "vec2", "input_xy_pos");
                   "z_pos" := ("uniform", "float", "input_z_pos") ]});
    do vbo <- get _vbo;
    do vbo <- deref TypeError vbo;
    do column <- lift (Gloo.getitem "pos" vbo);
    let func := stage "input_xy_pos" column func in
    let func := stage "input_z_pos" (Scalar 0%Q) func in
    ret func
  else
    do func <- lift (Composite.bind XYZInputFunc "local_position"
                {[ "xyz_pos" := ("attribute", "vec3", "input_xyz_pos") ]});
    do vbo <- get _vbo;
    let func := stage "input_xyz_pos"
                  (match vbo with Some b => Buffer b | None => PyNone end)
                  func in
    ret func.

Definition _get_color_func : M FunctionInstance :=
  (* Select uniform- or attribute-input *)
  do d <- get _data;
  do d <- deref AttributeError d;
  if has_field "color" d
  then
    do func <- lift (bind_fragment RGBAAttributeFunc "frag_color"
                {[ "input" := ("attribute", "vec4", "input_color") ]});
    do vbo <- get _vbo;
    do vbo <- deref TypeError vbo;
    do column <- lift (Gloo.getitem "color" vbo);
    ret (stage "input_color" column func)
  else
    do func <- lift (Composite.bind RGBAUniformFunc "frag_color"
                {[ "rgba" := ("uniform", "vec4", "input_color") ]});
    do o <- get _opts;
    ret (stage "input_color" (Array (np_array (opts.color o))) func).

Definition _build_program : M unit :=
  do vbo <- get _vbo;
  run (when (match vbo with None => true | Some _ => false end)
       then _build_vbo);
  (* Create composite program *)
  run on_context (record ProgramNew);
  run assign_program (Some (create vertex_shader fragment_shader));
  (* Attach position input component *)
  do pos_func <- _get_position_function;
  run program_set_hook "local_position" pos_func;
  (* Attach transformation function *)
  do tr <- transform;
  let tr_bound := bind_map tr "map_local_to_nd" in
  run program_set_hook "map_local_to_nd" tr_bound;
  (* Attach color input function *)
  do color_func <- _get_color_func;
  program_set_hook "frag_color" color_func.

Definition paint : M unit :=
  do o <- get _opts;
  if match opts.pos o with
     | None => true
     | Some pos => len pos =? 0
     end
  then ret tt
  else
    do program <- get _program;
    run (when (match program with None => true | Some _ => false end)
         then _build_program);
    do o <- get _opts;
    run on_context (glLineWidth (opts.width o));
    program_draw "LINE_STRIP".

(** *** The objects a build leaves behind *)

(** The shapes of the views [self._data['pos']] and [self._data['color']]
    for positions [p] and a color array [a]. *)
Definition pos_view (p : ndarray) : list nat :=
  view_shape (shape_init p) (shape_last p).

Definition color_view (p a : ndarray) : list nat :=
  view_shape (shape_init p) (shape_last a).

(** The structured array _build_vbo stages for positions [p] and color
    option [c]. *)
Definition staged (p : ndarray) (c : color_value) : recarray :=
  {| rec_shape := shape_init p;
     rec_dtype :=
       {| field_name := "pos"; field_count := shape_last p |}
       :: (if color_is_array c
           then [{| field_name := "color";
                    field_count := shape_last (np_array c) |}]
           else []);
     rec_columns :=
       let pos_column :=
         {| copied_from := p; stored_shape := pos_view p |} in
       if color_is_array c
       then <["color" := {| copied_from := np_array c;
                            stored_shape := color_view p (np_array c) |}]>
              (<["pos" := pos_column]> ∅)
       else <["pos" := pos_column]> ∅ |}.

(** Both assignments of _build_vbo go through: the positions fit their
    column and a per-vertex color array broadcasts to its column. *)
Definition stageable (p : ndarray) (c : color_value) : bool :=
  assignable (shape p) (pos_view p)
  && (if color_is_array c
      then assignable (shape (np_array c)) (color_view p (np_array c))
      else true).

(** [self._data['pos'].shape[-1]] exists. *)
Definition selectable (p : ndarray) : bool :=
  match last (pos_view p) with Some _ => true | None => false end.

(** The arrays can be staged and read back: _build_program will not raise
    on them. *)
Definition fits (p : ndarray) (c : color_value) : bool :=
  stageable p c && selectable p.

(** The driver of the context accepts the transform. *)
Definition accepted (ctx : Context) (tr : Transform) : bool :=
  match tr with
  | NullTransform => true
  | GLSLTransform snippet =>
      match driver ctx snippet with Accepted => true | _ => false end
  end.

(** Whatever paint has to stage, select and compile for [w] goes through:
    either its guard returns at once, or the arrays fit and the driver
    accepts the transform. *)
Definition ready (w : World) : bool :=
  match opts.pos (_opts (self w)) with
  | None => true
  | Some p =>
      (len p =? 0)
      || (fits p (opts.color (_opts (self w)))
          && accepted (gl w) (opts.transform (_opts (self w))))
  end.

Definition xy_function (vbo : VertexBuffer) : FunctionInstance :=
  {| fn_origin := OfTemplate XYInputFunc;
     fn_name := "local_position";
     fn_roles := {[ "xy_pos" := ("attribute", "vec2", "input_xy_pos");
                    "z_pos" := ("uniform", "float", "input_z_pos") ]};
     fn_slots := <["input_z_pos" := Scalar 0%Q]>
                   (<["input_xy_pos" := BufferField vbo "pos"]> ∅) |}.

Definition xyz_function (vbo : VertexBuffer) : FunctionInstance :=
  {| fn_origin := OfTemplate XYZInputFunc;
     fn_name := "local_position";
     fn_roles := {[ "xyz_pos" := ("attribute", "vec3", "input_xyz_pos") ]};
     fn_slots := <["input_xyz_pos" := Buffer vbo]> ∅ |}.

Definition attribute_color_function (vbo : VertexBuffer) : FunctionInstance :=
  {| fn_origin := OfFragment RGBAAttributeFunc;
     fn_name := "frag_color";
     fn_roles := {[ "input" := ("attribute", "vec4", "input_color") ]};
     fn_slots := <["input_color" := BufferField vbo "color"]> ∅ |}.

Definition uniform_color_function (c : color_value) : FunctionInstance :=
  {| fn_origin := OfTemplate RGBAUniformFunc;
     fn_name := "frag_color";
     fn_roles := {[ "rgba" := ("uniform", "vec4", "input_color") ]};
     fn_slots := <["input_color" := Array (np_array c)]> ∅ |}.

(** The last axis of the view on the staged positions. *)
Definition components_read (p : ndarray) : nat :=
  default 0 (last (pos_view p)).

Definition position_function (p : ndarray) (vbo : VertexBuffer)
  : FunctionInstance :=
  if components_read p =? 2 then xy_function vbo else xyz_function vbo.

Definition color_function (c : color_value) (vbo : VertexBuffer)
  : FunctionInstance :=
  if color_is_array c
  then attribute_color_function vbo
  else uniform_color_function c.

(** The program _build_program assembles for options [o] with positions
    [p] over the buffer [vbo]; [b] tells whether a draw has compiled it. *)
Definition assembled (o : opts.dict) (p : ndarray) (vbo : VertexBuffer)
    (b : bool) : CompositeProgram :=
  {| vmain := vertex_shader;
     fmain := fragment_shader;
     hooks :=
       <["frag_color" := color_function (opts.color o) vbo]>
         (<["map_local_to_nd" :=
              bind_map (opts.transform o) "map_local_to_nd"]>
            (<["local_position" := position_function p vbo]> ∅));
     compiled := b |}.

(** *** What the owner of the arrays can still do *)

(** set_data stores the very array it is given ([self._opts['pos'] = pos],
    and likewise the color), so whoever passed it can write into it
    afterwards.  The visual then holds the written array, while
    [self._data], the vertex buffer and the value slots of a program, which
    hold copies made by numpy, are as before. *)
Definition caller_writes_pos (items : list Q) (w : World) : World :=
  {| self :=
       {| _opts :=
            {| opts.pos :=
                 match opts.pos (_opts (self w)) with
                 | Some p => Some (written items p)
                 | None => None
                 end;
               opts.color := opts.color (_opts (self w));
               opts.width := opts.width (_opts (self w));
               opts.transform := opts.transform (_opts (self w)) |};
          _program := _program (self w);
          _vbo := _vbo (self w);
          _data := _data (self w) |};
     gl := gl w |}.

(** The same for the color: an ndarray keeps its shape, a sequence that
    is not an ndarray (a list) becomes another such sequence. *)
Definition caller_writes_color (items : list Q) (w : World) : World :=
  {| self :=
       {| _opts :=
            {| opts.pos := opts.pos (_opts (self w));
               opts.color :=
                 match opts.color (_opts (self w)) with
                 | ColorArray a => ColorArray (written items a)
                 | ColorTuple _ => ColorTuple items
                 end;
               opts.width := opts.width (_opts (self w));
               opts.transform := opts.transform (_opts (self w)) |};
          _program := _program (self w);
          _vbo := _vbo (self w);
          _data := _data (self w) |};
     gl := gl w |}.

(** Positions [p0] and color [c0] are laid out as [p] and [c]: the arrays
    staged from them have the same fields and shapes. *)
Definition same_layout (p0 p : ndarray) (c0 c : color_value) : Prop :=
  shape p0 = shape p
  /\ color_is_array c0 = color_is_array c
  /\ (color_is_array c = true -> shape (np_array c0) = shape (np_array c)).

(** The caches agree with the options in their layout: a cached buffer
    wraps the array that was staged, when the buffer was built, from
    positions and a color laid out as the current ones, which fit; a
    cached program is a compiled program over the cached buffer, for
    positions with at least one row, the current transform, which the
    driver accepted, and a color that is a per-vertex array exactly when
    the current one is. *)
Definition vbo_consistent (v : LineVisual) : Prop :=
  forall vbo, _vbo v = Some vbo ->
    exists p p0 c0, opts.pos (_opts v) = Some p
      /\ fits p (opts.color (_opts v)) = true
      /\ same_layout p0 p c0 (opts.color (_opts v))
      /\ vb_data vbo = staged p0 c0
      /\ _data v = Some (staged p0 c0).

Definition program_consistent (w : World) : Prop :=
  forall prog, _program (self w) = Some prog ->
    exists p vbo o0, opts.pos (_opts (self w)) = Some p
      /\ 0 < len p
      /\ _vbo (self w) = Some vbo
      /\ opts.transform o0 = opts.transform (_opts (self w))
      /\ color_is_array (opts.color o0)
         = color_is_array (opts.color (_opts (self w)))
      /\ prog = assembled o0 p vbo true
      /\ accepted (gl w) (opts.transform (_opts (self w))) = true.

Definition consistent (w : World) : Prop :=
  vbo_consistent (self w) /\ program_consistent w.

(** The worlds a LineVisual can be in: constructed, then driven through
    its public interface by calls that return, while the owner of its
    arrays writes into them. *)
Inductive reachable : World -> Prop :=
| reach_init pos color width ctx w :
    __init__ pos color width ctx = Ok (tt, w) -> reachable w
| reach_set_data pos color width w w' :
    reachable w -> set_data pos color width w = Ok (tt, w') -> reachable w'
| reach_set_transform tr w w' :
    reachable w -> set_transform tr w = Ok (tt, w') -> reachable w'
| reach_paint w w' :
    reachable w -> paint w = Ok (tt, w') -> reachable w'
| reach_write_pos items w :
    reachable w -> reachable (caller_writes_pos items w)
| reach_write_color items w :
    reachable w -> reachable (caller_writes_color items w).

(** *** Closed forms of the methods *)

(** The context after a vertex buffer was created from [d]. *)
Definition new_buffer_context (d : recarray) (ctx : Context) : Context :=
  {| line_width := line_width ctx;
     journal := journal ctx ++ [VertexBufferNew d];
     created := S (created ctx);
     driver := driver ctx |}.

(** The driver's answer for a transform. *)
Definition transform_verdict (ctx : Context) (tr : Transform) : verdict :=
  match tr with
  | NullTransform => Accepted
  | GLSLTransform snippet => driver ctx snippet
  end.

(** The calls of a draw on a program whose compiled flag is [b]. *)
Definition draw_calls (b : bool) (mode : string) (w : Q) : list call :=
  (if b then [] else [Compile]) ++ [Draw mode w].

(** The vertex buffer a build works on: the cached one, or else a new
    one. *)
Definition buffer_for (v : LineVisual) (ctx : Context) (p : ndarray)
  : VertexBuffer :=
  match _vbo v with
  | Some vbo => vbo
  | None => {| vb_id := created ctx;
               vb_data := staged p (opts.color (_opts v)) |}
  end.

(** The object after _build_program has run on [v]: the program is
    assembled from the current options, over the buffer the build worked
    on, and [self._data] is the array that buffer wraps. *)
Definition after_build (v : LineVisual) (ctx : Context) (p : ndarray)
  : LineVisual :=
  {| _opts := _opts v;
     _program := Some (assembled (_opts v) p (buffer_for v ctx p) false);
     _vbo := Some (buffer_for v ctx p);
     _data := Some (vb_data (buffer_for v ctx p)) |}.

(** The calls _build_program makes: a vertex buffer only when none is
    cached, then the program and its three hooks. *)
Definition build_calls (v : LineVisual) (p : ndarray) : list call :=
  (match _vbo v with
   | None => [VertexBufferNew (staged p (opts.color (_opts v)))]
   | Some _ => []
   end)
  ++ [ProgramNew; SetHook "local_position"; SetHook "map_local_to_nd";
      SetHook "frag_color"].

(** The number of vertex buffers once [v] has one. *)
Definition buffers_after (v : LineVisual) (ctx : Context) : nat :=
  match _vbo v with
  | None => S (created ctx)
  | Some _ => created ctx
  end.

(** The context after _build_program has run on [v]. *)
Definition built_context (v : LineVisual) (ctx : Context) (p : ndarray)
  : Context :=
  {| line_width := line_width ctx;
     journal := journal ctx ++ build_calls v p;
     created := buffers_after v ctx;
     driver := driver ctx |}.

(** The program a paint draws with: the cached one, or else the one it
    builds and compiles. *)
Definition program_for (v : LineVisual) (ctx : Context) (p : ndarray)
  : CompositeProgram :=
  match _program v with
  | Some prog => prog
  | None => assembled (_opts v) p (buffer_for v ctx p) true
  end.

(** The object after a paint that has drawn. *)
Definition painted (v : LineVisual) (ctx : Context) (p : ndarray)
  : LineVisual :=
  {| _opts := _opts v;
     _program := Some (program_for v ctx p);
     _vbo := Some (buffer_for v ctx p);
     _data := Some (vb_data (buffer_for v ctx p)) |}.

(** A draw compiles when no compiled handle is cached. *)
Definition compile_calls (v : LineVisual) : list call :=
  match _program v with
  | Some prog => if compiled prog then [] else [Compile]
  | None => [Compile]
  end.

(** The calls of a paint that draws. *)
Definition paint_calls (v : LineVisual) (p : ndarray) : list call :=
  (match _program v with None => build_calls v p | Some _ => [] end)
  ++ [LineWidth (opts.width (_opts v))]
  ++ compile_calls v
  ++ [Draw "LINE_STRIP" (opts.width (_opts v))].

(** The context after a paint that has drawn. *)
Definition painted_context (v : LineVisual) (ctx : Context) (p : ndarray)
  : Context :=
  {| line_width := opts.width (_opts v);
     journal := journal ctx ++ paint_calls v p;
     created := buffers_after v ctx;
     driver := driver ctx |}.

(** The guard of paint lets the object through. *)
Definition drawable (v : LineVisual) (p : ndarray) : Prop :=
  opts.pos (_opts v) = Some p /\ 0 < len p.

(** The options after set_data: a field is replaced when its argument is
    not None. *)
Definition updated (pos : option ndarray) (color : option color_value)
    (width : option Q) (o : opts.dict) : opts.dict :=
  {| opts.pos := match pos with Some p => Some p | None => opts.pos o end;
     opts.color := match color with Some c => c | None => opts.color o end;
     opts.width := match width with Some w => w | None => opts.width o end;
     opts.transform := opts.transform o |}.

(** *** Reading a journal *)

Definition is_draw (c : call) : bool :=
  match c with Draw _ _ => true | _ => false end.

Definition is_build (c : call) : bool :=
  match c with
  | VertexBufferNew _ | ProgramNew | SetHook _ | Compile => true
  | _ => false
  end.

Definition is_program_new (c : call) : bool :=
  match c with ProgramNew => true | _ => false end.

Definition is_compile (c : call) : bool :=
  match c with Compile => true | _ => false end.

Definition is_vertex_buffer_new (c : call) : bool :=
  match c with VertexBufferNew _ => true | _ => false end.

Definition hook_names (j : list call) : list string :=
  omap (fun c => match c with SetHook n => Some n | _ => None end) j.

(** The number of components of a GLSL type. *)
Definition components (ty : string) : nat :=
  if String.eqb ty "float" then 1
  else if String.eqb ty "vec2" then 2
  else if String.eqb ty "vec3" then 3
  else if String.eqb ty "vec4" then 4
  else 0.

(** The arity of a function instance's vertex input: the components of
    the variables it binds as attributes. *)
Definition attribute_arity (f : FunctionInstance) : nat :=
  map_fold (fun _ r n =>
              if String.eqb (storage_class r) "attribute"
              then components (glsl_type r) + n else n)
           0 (fn_roles f).

End Line.

(** ** Concrete visuals *)

Module Scenarios.
Import Line.

(** A context in which nothing has happened yet, with a driver that
    accepts the snippet "scale" and fails to compile any other. *)
Definition fresh_context : Context :=
  {| line_width := 1%Q; journal := []; created := 0;
     driver := fun snippet =>
                 if String.eqb snippet "scale" then Accepted
                 else CompileFails |}.

(** [np.zeros((n, k))] *)
Definition zeros (n k : nat) : ndarray :=
  {| nd_len := n; nd_inner := [k]; nd_items := repeat 0%Q (n * k) |}.

(** The world right after [LineVisual(pos, color, width)]. *)
Definition constructed (pos : option ndarray) (color : option color_value)
    (width : option Q) : World :=
  {| self := {| _opts := updated pos color width defaults;
                _program := None; _vbo := None; _data := None |};
     gl := fresh_context |}.

Definition after_paint (w : World) : World :=
  match paint w with
  | Ok (_, w') => w'
  | Raise _ => w
  end.

(** Thirty 2-D positions, default color and width. *)
Definition line30 : World := constructed (Some (zeros 30 2)) None None.

(** The same visual once painted: its program is built and compiled. *)
Definition line30_painted : World := after_paint line30.

(** Thirty 3-D positions with one RGBA color per vertex. *)
Definition colored30 : World :=
  constructed (Some (zeros 30 3)) (Some (ColorArray (zeros 30 4))) None.

(** A visual whose position array has no row: [np.zeros((0, 2))]. *)
Definition line0 : World := constructed (Some (zeros 0 2)) None None.

(** Three positions given two colors: [np.zeros((3, 2))] with
    [color=np.zeros((2, 4))]. *)
Definition mismatched : World :=
  constructed (Some (zeros 3 2)) (Some (ColorArray (zeros 2 4))) None.

(** The vertex buffer the first paint of [line30] creates. *)
Definition line30_buffer : VertexBuffer :=
  {| vb_id := 0;
     vb_data := staged (zeros 30 2) (ColorTuple [1%Q; 1%Q; 1%Q; 1%Q]) |}.

Definition with_transform (tr : Transform) (w : World) : World :=
  match set_transform tr w with
  | Ok (_, w') => w'
  | Raise _ => w
  end.

Definition with_data (pos : option ndarray) (color : option color_value)
    (width : option Q) (w : World) : World :=
  match set_data pos color width w with
  | Ok (_, w') => w'
  | Raise _ => w
  end.

(** Thirty 2-D positions under a transform whose snippet the driver
    refuses to compile. *)
Definition refused30 : World := with_transform (GLSLTransform "warp") line30.

(** The colored visual once painted. *)
Definition colored30_painted : World := after_paint colored30.

End Scenarios.

(** ** What the methods are expected to do *)

Module Behaviour.
Import Line.

(** The next paint that gets past its guard, on arrays that fit and a
    transform the driver accepts, constructs a program and compiles it
    before it draws. *)
Definition rebuilt_by_next_paint (w : World) : Prop :=
  forall p, drawable (self w) p -> ready w = true ->
    exists w' prog calls,
      paint w = Ok (tt, w')
      /\ _program (self w') = Some prog
      /\ compiled prog = true
      /\ journal (gl w') = journal (gl w) ++ calls
      /\ In ProgramNew calls
      /\ In Compile calls.

(** The method [m] returns and leaves no cached program behind. *)
Definition discards_program (m : M unit) (w : World) : Prop :=
  exists w',
    m w = Ok (tt, w')
    /\ _program (self w') = None
    /\ rebuilt_by_next_paint w'.

(** Two paints in a row: the second one builds nothing and keeps the
    program of the first; over both, at most one program is constructed
    and at most one compilation runs.  When there is something to draw,
    each paint draws once, the first one leaves a compiled program, and it
    is the first one that constructs and compiles it when none was
    cached. *)
Definition second_paint_reuses_program (w : World) : Prop :=
  exists w1 w2 calls1 calls2,
    paint w = Ok (tt, w1)
    /\ paint w1 = Ok (tt, w2)
    /\ journal (gl w1) = journal (gl w) ++ calls1
    /\ journal (gl w2) = journal (gl w1) ++ calls2
    /\ List.filter is_build calls2 = []
    /\ length (List.filter is_program_new (calls1 ++ calls2)) <= 1
    /\ length (List.filter is_compile (calls1 ++ calls2)) <= 1
    /\ _program (self w2) = _program (self w1)
    /\ forall p, drawable (self w) p ->
         (exists prog, _program (self w1) = Some prog /\ compiled prog = true)
         /\ length (List.filter is_draw calls1) = 1
         /\ length (List.filter is_draw calls2) = 1
         /\ (_program (self w) = None ->
             length (List.filter is_program_new calls1) = 1
             /\ length (List.filter is_compile calls1) = 1).

(** Assigning a transform to a visual that caches the buffer [vbo] keeps
    that buffer and the staged array, and the next program build works on
    that same buffer object without creating another one. *)
Definition transform_keeps_buffer (tr : Transform) (vbo : VertexBuffer)
    (w : World) : Prop :=
  exists w' w'' p calls,
    set_transform tr w = Ok (tt, w')
    /\ _program (self w') = None
    /\ _vbo (self w') = Some vbo
    /\ _data (self w') = _data (self w)
    /\ _build_program w' = Ok (tt, w'')
    /\ opts.pos (_opts (self w')) = Some p
    /\ _vbo (self w'') = Some vbo
    /\ _data (self w'') = _data (self w)
    /\ _program (self w'')
         = Some (assembled (_opts (self w')) p vbo false)
    /\ journal (gl w'') = journal (gl w') ++ calls
    /\ List.filter is_vertex_buffer_new calls = []
    /\ In ProgramNew calls
    /\ created (gl w'') = created (gl w).

(** set_data leaves neither a vertex buffer nor a program. *)
Definition set_data_discards_both (pos : option ndarray)
    (color : option color_value) (width : option Q) (w : World) : Prop :=
  exists w',
    set_data pos color width w = Ok (tt, w')
    /\ _vbo (self w') = None
    /\ _program (self w') = None.

(** set_data(width=wd) on [w] keeps the cached program, and the next paint
    draws under the new width without building anything. *)
Definition width_only_keeps_program (w : World) (wd : Q) : Prop :=
  exists w1 w2 calls,
    set_data None None (Some wd) w = Ok (tt, w1)
    /\ _program (self w1) = _program (self w)
    /\ paint w1 = Ok (tt, w2)
    /\ journal (gl w2) = journal (gl w1) ++ calls
    /\ List.filter is_build calls = []
    /\ line_width (gl w2) = wd.

(** set_data(width=wd) on [w] discards the program and the vertex buffer;
    the next paint builds them again and draws under the new width. *)
Definition width_only_rebuilds (w : World) (wd : Q) : Prop :=
  exists w1 w2 calls,
    set_data None None (Some wd) w = Ok (tt, w1)
    /\ _program (self w1) = None
    /\ _vbo (self w1) = None
    /\ opts.width (_opts (self w1)) = wd
    /\ paint w1 = Ok (tt, w2)
    /\ line_width (gl w2) = wd
    /\ journal (gl w2) = journal (gl w1) ++ calls
    /\ In ProgramNew calls
    /\ In Compile calls
    /\ List.filter is_draw calls = [Draw "LINE_STRIP" wd].

(** A color that is not a per-vertex array (or the default). *)
Definition uniform (color : option color_value) : Prop :=
  match color with
  | Some c => color_is_array c = false
  | None => True
  end.

(** What the first paint of a visual constructed on [n] 2-D positions
    with a uniform color selects and issues: the 2-D position function
    with depth 0.0, the uniform color function holding the given color or
    the default, and one LINE_STRIP draw. *)
Definition two_d_scenario (n : nat) (color : option color_value)
    (width : option Q) : Prop :=
  forall items ctx,
  exists w0 w1 prog f g calls,
    __init__ (Some {| nd_len := n; nd_inner := [2]; nd_items := items |})
             color width ctx = Ok (tt, w0)
    /\ paint w0 = Ok (tt, w1)
    /\ _program (self w1) = Some prog
    /\ hooks prog !! "local_position" = Some f
    /\ fn_origin f = OfTemplate XYInputFunc
    /\ fn_slots f !! "input_z_pos" = Some (Scalar 0%Q)
    /\ hooks prog !! "frag_color" = Some g
    /\ fn_origin g = OfTemplate RGBAUniformFunc
    /\ fn_slots g !! "input_color"
         = Some (Array (np_array (match color with
                                  | Some c => c
                                  | None => ColorTuple [1%Q; 1%Q; 1%Q; 1%Q]
                                  end)))
    /\ journal (gl w1) = journal ctx ++ calls
    /\ List.filter is_draw calls
         = [Draw "LINE_STRIP" (match width with Some x => x | None => 1%Q end)].

(** paint does nothing when no position is set, and in every other case
    leaves a built program and one draw under the current width. *)
Definition noop_exactly_when_unset (w : World) : Prop :=
  (opts.pos (_opts (self w)) = None -> paint w = Ok (tt, w))
  /\ (opts.pos (_opts (self w)) <> None ->
      exists w' calls,
        paint w = Ok (tt, w')
        /\ is_Some (_program (self w'))
        /\ journal (gl w') = journal (gl w) ++ calls
        /\ List.filter is_draw calls
             = [Draw "LINE_STRIP" (opts.width (_opts (self w)))]).

(** paint does nothing when no position is set or the position array has
    no row.  Otherwise, when the arrays fit and the driver accepts the
    transform, it leaves a compiled program, sets the line width to the
    current width and issues one LINE_STRIP draw under it; when nothing is
    cached and the arrays cannot be staged it raises ValueError, and when
    they fit but the driver refuses the shaders it raises the driver's
    error. *)
Definition noop_when_unset_or_empty (w : World) : Prop :=
  (match opts.pos (_opts (self w)) with
   | None => True
   | Some p => len p = 0
   end -> paint w = Ok (tt, w))
  /\ (forall p, drawable (self w) p -> ready w = true ->
      exists w' prog calls,
        paint w = Ok (tt, w')
        /\ _program (self w') = Some prog
        /\ compiled prog = true
        /\ line_width (gl w') = opts.width (_opts (self w))
        /\ journal (gl w') = journal (gl w) ++ calls
        /\ List.filter is_draw calls
             = [Draw "LINE_STRIP" (opts.width (_opts (self w)))])
  /\ (forall p, drawable (self w) p ->
      _program (self w) = None ->
      _vbo (self w) = None ->
      stageable p (opts.color (_opts (self w))) = false ->
      paint w = Raise ValueError)
  /\ (forall p, drawable (self w) p ->
      _program (self w) = None ->
      fits p (opts.color (_opts (self w))) = true ->
      accepted (gl w) (opts.transform (_opts (self w))) = false ->
      paint w = Raise ShaderCompileError
      \/ paint w = Raise ShaderLinkError).

(** The position function a program build installs for positions [p]. *)
Definition position_function_selected (w : World) (p : ndarray) : Prop :=
  exists w' prog f,
    _build_program w = Ok (tt, w')
    /\ _program (self w') = Some prog
    /\ hooks prog !! "local_position" = Some f
    /\ (shape_last p = 2 ->
        fn_origin f = OfTemplate XYInputFunc
        /\ fn_roles f
           = {[ "xy_pos" := ("attribute", "vec2", "input_xy_pos");
                "z_pos" := ("uniform", "float", "input_z_pos") ]}
        /\ attribute_arity f = shape_last p)
    /\ (shape_last p = 3 ->
        fn_origin f = OfTemplate XYZInputFunc
        /\ fn_roles f
           = {[ "xyz_pos" := ("attribute", "vec3", "input_xyz_pos") ]}
        /\ attribute_arity f = shape_last p).

(** The color function a program build installs: the staged array has a
    color column exactly when the color is a per-vertex array, and then
    the attribute function reads that column of the vertex buffer, which
    holds numpy's float32 copy of a color array of this shape: of the
    current one when this build creates the buffer. *)
Definition color_function_selected (w : World) : Prop :=
  exists w' prog vbo d g,
    _build_program w = Ok (tt, w')
    /\ _program (self w') = Some prog
    /\ _vbo (self w') = Some vbo
    /\ _data (self w') = Some d
    /\ vb_data vbo = d
    /\ hooks prog !! "frag_color" = Some g
    /\ has_field "color" d = color_is_array (opts.color (_opts (self w)))
    /\ forall a, opts.color (_opts (self w)) = ColorArray a -> 1 < ndim a ->
         fn_origin g = OfFragment RGBAAttributeFunc
         /\ fn_roles g !! "input" = Some ("attribute", "vec4", "input_color")
         /\ fn_slots g !! "input_color" = Some (BufferField vbo "color")
         /\ (exists col, rec_columns d !! "color" = Some col
                         /\ shape (copied_from col) = shape a
                         /\ (_vbo (self w) = None -> copied_from col = a))
         /\ find_field "color" (rec_dtype d)
            = Some {| field_name := "color"; field_count := shape_last a |}.

(** A program build calls set_hook for local_position, map_local_to_nd
    and frag_color, in this order, and for nothing else. *)
Definition binds_three_hooks (w : World) : Prop :=
  exists w' prog calls,
    _build_program w = Ok (tt, w')
    /\ _program (self w') = Some prog
    /\ journal (gl w') = journal (gl w) ++ calls
    /\ hook_names calls = ["local_position"; "map_local_to_nd"; "frag_color"]
    /\ is_Some (hooks prog !! "local_position")
    /\ is_Some (hooks prog !! "map_local_to_nd")
    /\ is_Some (hooks prog !! "frag_color")
    /\ hooks prog !! "post_hook" = None.

End Behaviour.

(** ** Sequences of calls *)

Module Usage.
Import Line.
Local Open Scope py_scope.

(** [n] calls of paint in a row, as a canvas makes them frame after
    frame. *)
Fixpoint paints (n : nat) : M unit :=
  match n with
  | 0 => ret tt
  | S k => run paint; paints k
  end.

(** The argument a second call gives, or else the one of the first. *)
Definition or_earlier {A} (second first : option A) : option A :=
  match second with
  | Some x => Some x
  | None => first
  end.

End Usage.

(** * Properties *)

Import Line Scenarios Behaviour.
Local Open Scope py_scope.

(** ** The hooks of the master templates *)

Lemma vertex_shader_prototypes :
  prototypes vertex_shader =
    [ {| proto_rtype := "vec4"; proto_name := "local_position";
         proto_args := [] |};
      {| proto_rtype := "vec4"; proto_name := "map_local_to_nd";
         proto_args := ["vec4"] |};
      {| proto_rtype := "void"; proto_name := "post_hook";
         proto_args := [] |} ].
Proof. vm_compute. reflexivity. Qed.

Lemma fragment_shader_prototypes :
  prototypes fragment_shader =
    [ {| proto_rtype := "vec4"; proto_name := "frag_color";
         proto_args := [] |} ].
Proof. vm_compute. reflexivity. Qed.

Lemma set_hook_line name f h b :
  In name ["local_position"; "map_local_to_nd"; "post_hook"; "frag_color"] ->
  set_hook name f {| vmain := vertex_shader; fmain := fragment_shader;
                     hooks := h; compiled := b |}
  = Ok {| vmain := vertex_shader; fmain := fragment_shader;
          hooks := <[name := f]> h; compiled := false |}.
Proof.
  intros Hin. unfold set_hook, is_declared, declared_hooks. simpl vmain. simpl fmain.
  rewrite vertex_shader_prototypes, fragment_shader_prototypes.
  simpl in Hin.
  destruct Hin as [<- | [<- | [<- | [<- | []]]]]; reflexivity.
Qed.

Lemma assembled_buildable o p vbo b : buildable (assembled o p vbo b) = true.
Proof.
  unfold buildable, declared_hooks, assembled. simpl vmain. simpl fmain.
  rewrite vertex_shader_prototypes, fragment_shader_prototypes.
  unfold bound. simpl.
  rewrite !bool_decide_eq_true_2; [reflexivity | | |];
    simplify_map_eq; eauto.
Qed.

(** ** The binds line.py performs all succeed *)

Lemma bind_XYInputFunc :
  Composite.bind XYInputFunc "local_position"
    {[ "xy_pos" := ("attribute", "vec2", "input_xy_pos");
       "z_pos" := ("uniform", "float", "input_z_pos") ]}
  = Ok {| fn_origin := OfTemplate XYInputFunc; fn_name := "local_position";
          fn_roles := {[ "xy_pos" := ("attribute", "vec2", "input_xy_pos");
                         "z_pos" := ("uniform", "float", "input_z_pos") ]};
          fn_slots := ∅ |}.
Proof. vm_compute. reflexivity. Qed.

Lemma bind_XYZInputFunc :
  Composite.bind XYZInputFunc "local_position"
    {[ "xyz_pos" := ("attribute", "vec3", "input_xyz_pos") ]}
  = Ok {| fn_origin := OfTemplate XYZInputFunc; fn_name := "local_position";
          fn_roles := {[ "xyz_pos" := ("attribute", "vec3", "input_xyz_pos") ]};
          fn_slots := ∅ |}.
Proof. vm_compute. reflexivity. Qed.

Lemma bind_RGBAAttributeFunc :
  bind_fragment RGBAAttributeFunc "frag_color"
    {[ "input" := ("attribute", "vec4", "input_color") ]}
  = Ok {| fn_origin := OfFragment RGBAAttributeFunc; fn_name := "frag_color";
          fn_roles := {[ "input" := ("attribute", "vec4", "input_color") ]};
          fn_slots := ∅ |}.
Proof. vm_compute. reflexivity. Qed.

Lemma bind_RGBAUniformFunc :
  Composite.bind RGBAUniformFunc "frag_color"
    {[ "rgba" := ("uniform", "vec4", "input_color") ]}
  = Ok {| fn_origin := OfTemplate RGBAUniformFunc; fn_name := "frag_color";
          fn_roles := {[ "rgba" := ("uniform", "vec4", "input_color") ]};
          fn_slots := ∅ |}.
Proof. vm_compute. reflexivity. Qed.

(** ** Closed forms of the methods *)

Ltac py_unfold :=
  unfold bind, ret, get, update, lift, deref, on_context,
    assign_opts, assign_program, assign_vbo, assign_data.

Lemma staged_has_pos p c : has_field "pos" (staged p c) = true.
Proof. reflexivity. Qed.

Lemma staged_has_color p c : has_field "color" (staged p c) = color_is_array c.
Proof. unfold staged, has_field. simpl. destruct (color_is_array c); reflexivity. Qed.

Ltac proj := cbn [self gl _opts _program _vbo _data fst snd].

Lemma run_bind {A B} (m : M A) (k : A -> M B) w a w' :
  m w = Ok (a, w') -> bind m k w = k a w'.
Proof. intros H. unfold bind. rewrite H. reflexivity. Qed.

(** *** numpy assignments *)

Lemma stretches_refl s : stretches s s = true.
Proof.
  induction s as [| x s IH]; [reflexivity |].
  cbn [stretches]. rewrite Nat.eqb_refl, IH. reflexivity.
Qed.

Lemma assignable_refl s : assignable s s = true.
Proof.
  unfold assignable. rewrite Nat.sub_diag. cbn [strip_ones].
  destruct s; apply stretches_refl.
Qed.

Lemma shape_split p : shape p = shape_init p ++ [shape_last p].
Proof.
  unfold shape_init, shape_last.
  assert (H : shape p <> []) by (unfold shape; discriminate).
  destruct (exists_last H) as (l & x & E). rewrite E.
  rewrite removelast_last, last_snoc. reflexivity.
Qed.

(** Positions whose last axis is not of length 1 always fit their column,
    and the view on it shows that last axis. *)
Lemma pos_view_wide p : shape_last p <> 1 -> pos_view p = shape p.
Proof.
  intros H. unfold pos_view, view_shape, subshape.
  destruct (shape_last p =? 1) eqn:E; [apply Nat.eqb_eq in E; contradiction |].
  symmetry. apply shape_split.
Qed.

Lemma components_read_wide p :
  shape_last p <> 1 -> components_read p = shape_last p.
Proof.
  intros H. unfold components_read. rewrite (pos_view_wide p H).
  rewrite shape_split, last_snoc. reflexivity.
Qed.

Lemma selectable_wide p : shape_last p <> 1 -> selectable p = true.
Proof.
  intros H. unfold selectable. rewrite (pos_view_wide p H).
  rewrite shape_split, last_snoc. reflexivity.
Qed.

Lemma fits_uniform p c :
  shape_last p <> 1 -> color_is_array c = false -> fits p c = true.
Proof.
  intros H Hc. unfold fits, stageable.
  rewrite (pos_view_wide p H), assignable_refl, Hc, (selectable_wide p H).
  reflexivity.
Qed.

(** One color per vertex: a color array with the rows of the positions
    fits. *)
Lemma fits_per_vertex p a :
  shape_last p <> 1 -> shape_last a <> 1 ->
  shape_init a = shape_init p ->
  fits p (ColorArray a) = true.
Proof.
  intros H Ha Hrows. unfold fits, stageable.
  rewrite (pos_view_wide p H), assignable_refl, (selectable_wide p H).
  cbn [np_array]. destruct (color_is_array (ColorArray a)); [| reflexivity].
  unfold color_view, view_shape, subshape.
  destruct (shape_last a =? 1) eqn:E; [apply Nat.eqb_eq in E; contradiction |].
  rewrite <- Hrows, <- shape_split, assignable_refl. reflexivity.
Qed.

(** *** _build_vbo *)

Lemma _build_vbo_outcome v ctx p :
  opts.pos (_opts v) = Some p ->
  _build_vbo {| self := v; gl := ctx |}
  = if stageable p (opts.color (_opts v))
    then Ok (tt, {| self :=
                      {| _opts := _opts v; _program := _program v;
                         _vbo := Some {| vb_id := created ctx;
                                         vb_data := staged p (opts.color (_opts v)) |};
                         _data := Some (staged p (opts.color (_opts v))) |};
                    gl := new_buffer_context
                            (staged p (opts.color (_opts v))) ctx |})
    else Raise ValueError.
Proof.
  intros Hp. unfold _build_vbo, data_setitem, gloo_VertexBuffer.
  do 2 py_unfold. cbn [self gl]. rewrite Hp.
  unfold stageable, staged, Numpy.setitem, Numpy.empty, new_buffer,
    new_buffer_context.
  destruct (opts.color (_opts v)) as [c | a];
    cbn [color_is_array color_shape_last np_array].
  2: destruct (1 <? ndim a).
  all: cbn [self gl _opts _program _vbo _data rec_dtype rec_shape
            rec_columns app].
  all: simpl find_field; cbv iota; cbn [field_count].
  all: change (view_shape (shape_init p) (shape_last p)) with (pos_view p).
  all: destruct (assignable (shape p) (pos_view p)); [| reflexivity].
  all: cbn [self gl _opts _program _vbo _data rec_dtype rec_shape
            rec_columns andb].
  all: try reflexivity.
  simpl find_field. cbv iota. cbn [field_count].
  change (view_shape (shape_init p) (shape_last a)) with (color_view p a).
  destruct (assignable (shape a) (color_view p a)); reflexivity.
Qed.

(** *** The selection methods *)

Lemma _get_position_function_spec v ctx p c vbo :
  _data v = Some (staged p c) ->
  _vbo v = Some vbo ->
  vb_data vbo = staged p c ->
  selectable p = true ->
  _get_position_function {| self := v; gl := ctx |}
  = Ok (position_function p vbo, {| self := v; gl := ctx |}).
Proof.
  intros Hd Hv Hvd Hsel.
  unfold _get_position_function, position_function, components_read.
  unfold selectable in Hsel.
  py_unfold. cbn [self]. rewrite Hd. unfold field_shape.
  simpl find_field. cbv iota. cbn [field_count rec_shape staged].
  change (view_shape (shape_init p) (shape_last p)) with (pos_view p).
  unfold last_axis.
  destruct (last (pos_view p)) as [n |]; [| discriminate Hsel].
  cbn [default from_option id].
  destruct (n =? 2).
  - rewrite bind_XYInputFunc. cbn [self]. rewrite Hv. unfold Gloo.getitem.
    rewrite Hvd, staged_has_pos. reflexivity.
  - rewrite bind_XYZInputFunc. cbn [self]. rewrite Hv. reflexivity.
Qed.

Lemma _get_color_func_spec v ctx p0 c0 vbo :
  _data v = Some (staged p0 c0) ->
  _vbo v = Some vbo ->
  vb_data vbo = staged p0 c0 ->
  color_is_array c0 = color_is_array (opts.color (_opts v)) ->
  _get_color_func {| self := v; gl := ctx |}
  = Ok (color_function (opts.color (_opts v)) vbo,
        {| self := v; gl := ctx |}).
Proof.
  intros Hd Hv Hvd Hsame. unfold _get_color_func, color_function. py_unfold.
  cbn [self]. rewrite Hd. rewrite staged_has_color, Hsame.
  destruct (color_is_array (opts.color (_opts v))) eqn:Hc.
  - rewrite bind_RGBAAttributeFunc. cbn [self]. rewrite Hv.
    unfold Gloo.getitem. rewrite Hvd, staged_has_color, Hsame. reflexivity.
  - rewrite bind_RGBAUniformFunc. reflexivity.
Qed.

(** What is selected depends on the layout only. *)
Lemma same_layout_refl p c : same_layout p p c c.
Proof. repeat split. Qed.

Lemma position_function_layout p0 p vbo :
  shape p0 = shape p -> position_function p0 vbo = position_function p vbo.
Proof.
  intros H. unfold position_function, components_read, pos_view, shape_init,
    shape_last. rewrite H. reflexivity.
Qed.

Lemma selectable_layout p0 p :
  shape p0 = shape p -> selectable p0 = selectable p.
Proof.
  intros H. unfold selectable, pos_view, shape_init, shape_last.
  rewrite H. reflexivity.
Qed.

Lemma program_set_hook_spec name f v ctx h b :
  In name ["local_position"; "map_local_to_nd"; "post_hook"; "frag_color"] ->
  _program v = Some {| vmain := vertex_shader; fmain := fragment_shader;
                       hooks := h; compiled := b |} ->
  program_set_hook name f {| self := v; gl := ctx |}
  = Ok (tt, {| self := {| _opts := _opts v;
                          _program := Some {| vmain := vertex_shader;
                                              fmain := fragment_shader;
                                              hooks := <[name := f]> h;
                                              compiled := false |};
                          _vbo := _vbo v; _data := _data v |};
               gl := record (SetHook name) ctx |}).
Proof.
  intros Hin Hp. unfold program_set_hook. py_unfold. simpl self. rewrite Hp.
  simpl self. rewrite (set_hook_line _ _ _ _ Hin). reflexivity.
Qed.

(** *** _build_program *)

(** The first step of _build_program: a vertex buffer is there
    afterwards, the cached one or a new one. *)
(** The buffer a build works on wraps an array staged from positions and
    a color laid out as the current ones: from the current ones when the
    build creates the buffer. *)
Lemma buffer_for_layout v ctx p :
  vbo_consistent v ->
  opts.pos (_opts v) = Some p ->
  exists p0 c0,
    same_layout p0 p c0 (opts.color (_opts v))
    /\ (_vbo v = None -> p0 = p /\ c0 = opts.color (_opts v))
    /\ vb_data (buffer_for v ctx p) = staged p0 c0.
Proof.
  intros Hv Hp. unfold buffer_for. destruct (_vbo v) as [vbo |] eqn:E.
  - destruct (Hv vbo E) as (p' & p0 & c0 & Hp' & _ & Hlay & Hvd & _).
    rewrite Hp in Hp'. injection Hp' as <-. exists p0, c0.
    split; [exact Hlay |]. split; [intros H; discriminate H | exact Hvd].
  - exists p, (opts.color (_opts v)). split; [apply same_layout_refl |].
    split; [intros _; split |]; reflexivity.
Qed.

Lemma stage_when_missing v ctx p :
  vbo_consistent v ->
  opts.pos (_opts v) = Some p ->
  fits p (opts.color (_opts v)) = true ->
  (when match _vbo v with None => true | Some _ => false end
   then _build_vbo) {| self := v; gl := ctx |}
  = Ok (tt, {| self := {| _opts := _opts v; _program := _program v;
                          _vbo := Some (buffer_for v ctx p);
                          _data := Some (vb_data (buffer_for v ctx p)) |};
               gl := {| line_width := line_width ctx;
                        journal := journal ctx
                          ++ match _vbo v with
                             | None => [VertexBufferNew
                                          (staged p (opts.color (_opts v)))]
                             | Some _ => []
                             end;
                        created := buffers_after v ctx;
                        driver := driver ctx |} |}).
Proof.
  intros Hc Hp Hfits. unfold buffer_for, buffers_after.
  destruct (_vbo v) as [vbo |] eqn:Hv.
  - destruct (Hc vbo Hv) as (p' & p0 & c0 & Hp' & _ & _ & Hvd & Hd).
    unfold ret. rewrite app_nil_r. rewrite Hvd, <- Hd.
    destruct v, ctx; cbn in *. subst. reflexivity.
  - rewrite (_build_vbo_outcome _ _ _ Hp).
    unfold fits in Hfits. apply andb_prop in Hfits as [Hst _].
    rewrite Hst. reflexivity.
Qed.

Lemma _build_program_spec v ctx p :
  vbo_consistent v ->
  opts.pos (_opts v) = Some p ->
  fits p (opts.color (_opts v)) = true ->
  _build_program {| self := v; gl := ctx |}
  = Ok (tt, {| self := after_build v ctx p; gl := built_context v ctx p |}).
Proof.
  intros Hc Hp Hfits. unfold _build_program.
  rewrite (run_bind _ _ _ (_vbo v) {| self := v; gl := ctx |}) by reflexivity.
  pose proof (stage_when_missing v ctx p Hc Hp Hfits) as Hrun.
  destruct (buffer_for_layout v ctx p Hc Hp)
    as (p0 & c0 & (Hshape & Hkind & _) & _ & Hvd).
  rewrite (run_bind _ _ _ _ _ Hrun).
  set (c := opts.color (_opts v)) in *.
  set (vbo := buffer_for v ctx p) in *.
  assert (Hsel : selectable p0 = true).
  { rewrite (selectable_layout p0 p Hshape).
    unfold fits in Hfits. apply andb_prop in Hfits. tauto. }
  unfold bind at 1, on_context at 1. proj.
  unfold bind at 1, assign_program at 1, update. proj.
  unfold bind at 1.
  erewrite (_get_position_function_spec _ _ p0 c0 vbo);
    [| cbn [_data]; rewrite Hvd; reflexivity | reflexivity | exact Hvd
     | exact Hsel].
  rewrite (position_function_layout p0 p vbo Hshape).
  unfold bind at 1.
  erewrite program_set_hook_spec; [| simpl; tauto | reflexivity]. proj.
  unfold bind at 1, transform, bind at 1, get, ret. proj.
  unfold bind at 1.
  erewrite program_set_hook_spec; [| simpl; tauto | reflexivity]. proj.
  unfold bind at 1.
  erewrite (_get_color_func_spec _ _ p0 c0 vbo);
    [| cbn [_data]; rewrite Hvd; reflexivity | reflexivity | exact Hvd
     | exact Hkind].
  erewrite program_set_hook_spec; [| simpl; tauto | reflexivity]. proj.
  unfold after_build, assembled, built_context, build_calls, record.
  proj. fold c. fold vbo. cbn [line_width journal created driver].
  rewrite <- !app_assoc.
  destruct (_vbo v); reflexivity.
Qed.

Lemma _build_program_unstageable v ctx p :
  opts.pos (_opts v) = Some p ->
  _vbo v = None ->
  stageable p (opts.color (_opts v)) = false ->
  _build_program {| self := v; gl := ctx |} = Raise ValueError.
Proof.
  intros Hp Hv Hst. unfold _build_program.
  rewrite (run_bind _ _ _ (_vbo v) {| self := v; gl := ctx |}) by reflexivity.
  rewrite Hv. unfold bind at 1.
  rewrite (_build_vbo_outcome _ _ _ Hp), Hst. reflexivity.
Qed.

(** *** draw and paint *)

Lemma accepted_verdict ctx tr :
  accepted ctx tr = true <-> transform_verdict ctx tr = Accepted.
Proof.
  unfold accepted, transform_verdict. destruct tr as [| s]; [tauto |].
  destruct (driver ctx s); split; intros H; try reflexivity; discriminate H.
Qed.

Lemma assembled_verdict ctx o p vbo b :
  build_verdict (driver ctx) (assembled o p vbo b)
  = transform_verdict ctx (opts.transform o).
Proof.
  unfold build_verdict, declared_hooks, assembled. simpl vmain. simpl fmain.
  rewrite vertex_shader_prototypes, fragment_shader_prototypes.
  cbn [List.map app]. unfold hook_verdict. cbn [proto_name hooks].
  rewrite lookup_insert_ne by discriminate.
  rewrite lookup_insert_ne by discriminate.
  rewrite lookup_insert_eq.
  rewrite (lookup_insert_ne _ "frag_color" "map_local_to_nd") by discriminate.
  rewrite lookup_insert_eq.
  rewrite (lookup_insert_ne _ "frag_color" "post_hook") by discriminate.
  rewrite (lookup_insert_ne _ "map_local_to_nd" "post_hook") by discriminate.
  rewrite (lookup_insert_ne _ "local_position" "post_hook") by discriminate.
  rewrite lookup_empty, lookup_insert_eq.
  unfold instance_verdict, position_function, color_function, bind_map,
    transform_verdict.
  cbn [fn_origin].
  destruct (components_read p =? 2), (color_is_array (opts.color o));
    cbn [fn_origin xy_function xyz_function attribute_color_function
         uniform_color_function first_failure];
    destruct (opts.transform o) as [| s]; try reflexivity;
    destruct (driver ctx s); reflexivity.
Qed.

Lemma program_draw_spec v ctx o p vbo b :
  _program v = Some (assembled o p vbo b) ->
  b = true \/ accepted ctx (opts.transform o) = true ->
  program_draw "LINE_STRIP" {| self := v; gl := ctx |}
  = Ok (tt, {| self := {| _opts := _opts v;
                          _program := Some (assembled o p vbo true);
                          _vbo := _vbo v; _data := _data v |};
               gl := {| line_width := line_width ctx;
                        journal := journal ctx
                          ++ draw_calls b "LINE_STRIP" (line_width ctx);
                        created := created ctx;
                        driver := driver ctx |} |}).
Proof.
  intros Hp Hok. unfold program_draw. py_unfold. proj. rewrite Hp.
  unfold draw, draw_calls. destruct b.
  - change (compiled (assembled o p vbo true)) with true. cbv iota.
    reflexivity.
  - change (compiled (assembled o p vbo false)) with false. cbv iota.
    destruct Hok as [H | H]; [discriminate H |].
    unfold build. rewrite assembled_buildable. cbn [negb].
    rewrite assembled_verdict. proj.
    apply accepted_verdict in H. rewrite H.
    unfold record, with_compiled. cbn. rewrite <- app_assoc. reflexivity.
Qed.

Lemma program_draw_refused v ctx o p vbo :
  _program v = Some (assembled o p vbo false) ->
  accepted ctx (opts.transform o) = false ->
  program_draw "LINE_STRIP" {| self := v; gl := ctx |} = Raise ShaderCompileError
  \/ program_draw "LINE_STRIP" {| self := v; gl := ctx |} = Raise ShaderLinkError.
Proof.
  intros Hp Hno. unfold program_draw. py_unfold. proj. rewrite Hp.
  unfold draw. change (compiled (assembled o p vbo false)) with false.
  cbv iota. unfold build. rewrite assembled_buildable. cbn [negb].
  rewrite assembled_verdict. proj.
  unfold accepted in Hno. unfold transform_verdict.
  destruct (opts.transform o) as [| s]; [discriminate Hno |].
  destruct (driver ctx s); [discriminate Hno | left | right]; reflexivity.
Qed.

Lemma paint_noop w :
  match opts.pos (_opts (self w)) with
  | None => True
  | Some p => len p = 0
  end ->
  paint w = Ok (tt, w).
Proof.
  intros H. unfold paint. unfold bind at 1, get.
  destruct (opts.pos (_opts (self w))) as [p |].
  - rewrite H. reflexivity.
  - reflexivity.
Qed.

(** The hypotheses under which a paint draws. *)
Lemma ready_drawable w p :
  drawable (self w) p ->
  ready w = true ->
  fits p (opts.color (_opts (self w))) = true
  /\ accepted (gl w) (opts.transform (_opts (self w))) = true.
Proof.
  intros [Hp Hlen] Hr. unfold ready in Hr. rewrite Hp in Hr.
  destruct (len p =? 0) eqn:E; [apply Nat.eqb_eq in E; lia |].
  cbn [orb] in Hr. apply andb_prop in Hr. exact Hr.
Qed.

Lemma paint_spec v ctx p :
  consistent {| self := v; gl := ctx |} ->
  drawable v p ->
  ready {| self := v; gl := ctx |} = true ->
  paint {| self := v; gl := ctx |}
  = Ok (tt, {| self := painted v ctx p; gl := painted_context v ctx p |}).
Proof.
  intros [Hv Hprog] Hd Hr.
  destruct (ready_drawable {| self := v; gl := ctx |} p Hd Hr)
    as [Hfits Hacc].
  destruct Hd as [Hp Hlen]. cbn [self gl] in *.
  unfold paint. unfold bind at 1, get at 1. proj. rewrite Hp.
  destruct (len p =? 0) eqn:E; [apply Nat.eqb_eq in E; lia |].
  unfold bind at 1, get at 1. proj.
  unfold painted, painted_context, paint_calls, compile_calls, program_for.
  destruct (_program v) as [prog |] eqn:Hpr.
  - destruct (Hprog prog Hpr)
      as (p' & vbo & o0 & Hp' & _ & Hvbo & _ & _ & -> & _).
    cbn [self gl] in Hp', Hvbo.
    rewrite Hp in Hp'. injection Hp' as <-.
    destruct (Hv vbo Hvbo) as (p' & p0 & c0 & Hp' & _ & _ & Hvd & Hd).
    rewrite Hp in Hp'. injection Hp' as <-.
    unfold bind at 1, ret at 1. unfold bind at 1, get at 1. proj.
    unfold bind at 1, on_context at 1. proj.
    erewrite program_draw_spec; [| exact Hpr | left; reflexivity].
    unfold buffer_for, buffers_after, glLineWidth, draw_calls. proj.
    cbn [line_width journal created driver compiled assembled].
    rewrite Hvbo, Hd, Hvd. rewrite <- !app_assoc. reflexivity.
  - unfold bind at 1.
    rewrite (_build_program_spec _ _ _ Hv Hp Hfits).
    unfold bind at 1, get at 1. proj.
    unfold bind at 1, on_context at 1. proj.
    erewrite program_draw_spec; [| reflexivity | right; exact Hacc].
    unfold after_build, built_context, glLineWidth, draw_calls. proj.
    cbn [line_width journal created driver]. rewrite <- !app_assoc.
    reflexivity.
Qed.

Lemma paint_unstageable v ctx p :
  drawable v p ->
  _program v = None ->
  _vbo v = None ->
  stageable p (opts.color (_opts v)) = false ->
  paint {| self := v; gl := ctx |} = Raise ValueError.
Proof.
  intros [Hp Hlen] Hpr Hv Hst.
  unfold paint. unfold bind at 1, get at 1. proj. rewrite Hp.
  destruct (len p =? 0) eqn:E; [apply Nat.eqb_eq in E; lia |].
  unfold bind at 1, get at 1. proj. rewrite Hpr. unfold bind at 1.
  rewrite (_build_program_unstageable _ _ _ Hp Hv Hst). reflexivity.
Qed.

Lemma paint_refused v ctx p :
  vbo_consistent v ->
  drawable v p ->
  _program v = None ->
  fits p (opts.color (_opts v)) = true ->
  accepted ctx (opts.transform (_opts v)) = false ->
  paint {| self := v; gl := ctx |} = Raise ShaderCompileError
  \/ paint {| self := v; gl := ctx |} = Raise ShaderLinkError.
Proof.
  intros Hv [Hp Hlen] Hpr Hfits Hno.
  assert (Hdraw := program_draw_refused (after_build v ctx p)
            (glLineWidth (opts.width (_opts v)) (built_context v ctx p))
            (_opts v) p (buffer_for v ctx p) eq_refl Hno).
  assert (Heq : paint {| self := v; gl := ctx |}
                = program_draw "LINE_STRIP"
                    {| self := after_build v ctx p;
                       gl := glLineWidth (opts.width (_opts v))
                               (built_context v ctx p) |}).
  { unfold paint. unfold bind at 1, get at 1. proj. rewrite Hp.
    destruct (len p =? 0) eqn:E; [apply Nat.eqb_eq in E; lia |].
    unfold bind at 1, get at 1. proj. rewrite Hpr. unfold bind at 1.
    rewrite (_build_program_spec _ _ _ Hv Hp Hfits).
    unfold bind at 1, get at 1. proj.
    unfold bind at 1, on_context at 1. proj. reflexivity. }
  rewrite Heq. exact Hdraw.
Qed.

Lemma _build_program_unselectable v ctx p :
  opts.pos (_opts v) = Some p ->
  _vbo v = None ->
  stageable p (opts.color (_opts v)) = true ->
  selectable p = false ->
  _build_program {| self := v; gl := ctx |} = Raise IndexError.
Proof.
  intros Hp Hv Hst Hsel. unfold _build_program.
  rewrite (run_bind _ _ _ (_vbo v) {| self := v; gl := ctx |}) by reflexivity.
  rewrite Hv. unfold bind at 1.
  rewrite (_build_vbo_outcome _ _ _ Hp), Hst.
  unfold bind at 1, on_context at 1. proj.
  unfold bind at 1, assign_program at 1, update. proj.
  unfold bind at 1.
  unfold _get_position_function. py_unfold. proj.
  unfold field_shape. simpl find_field. cbv iota.
  cbn [field_count rec_shape staged].
  change (view_shape (shape_init p) (shape_last p)) with (pos_view p).
  unfold last_axis. unfold selectable in Hsel.
  destruct (last (pos_view p)); [discriminate Hsel | reflexivity].
Qed.

Lemma paint_unselectable v ctx p :
  drawable v p ->
  _program v = None ->
  _vbo v = None ->
  stageable p (opts.color (_opts v)) = true ->
  selectable p = false ->
  paint {| self := v; gl := ctx |} = Raise IndexError.
Proof.
  intros [Hp Hlen] Hpr Hv Hst Hsel.
  unfold paint. unfold bind at 1, get at 1. proj. rewrite Hp.
  destruct (len p =? 0) eqn:E; [apply Nat.eqb_eq in E; lia |].
  unfold bind at 1, get at 1. proj. rewrite Hpr. unfold bind at 1.
  rewrite (_build_program_unselectable _ _ _ Hp Hv Hst Hsel). reflexivity.
Qed.

(** *** set_data, the transform setter and the constructor *)

Lemma set_data_spec pos color width v ctx :
  set_data pos color width {| self := v; gl := ctx |}
  = Ok (tt, {| self := {| _opts := updated pos color width (_opts v);
                          _program := None;
                          _vbo := None;
                          _data := _data v |};
               gl := ctx |}).
Proof.
  unfold set_data, updated, opts_set_pos, opts_set_color, opts_set_width.
  py_unfold.
  destruct v as [[p0 c0 w0 t0] prog vbo d].
  destruct pos, color, width; reflexivity.
Qed.

Lemma set_transform_spec tr v ctx :
  set_transform tr {| self := v; gl := ctx |}
  = Ok (tt, {| self := {| _opts := {| opts.pos := opts.pos (_opts v);
                                      opts.color := opts.color (_opts v);
                                      opts.width := opts.width (_opts v);
                                      opts.transform := tr |};
                          _program := None;
                          _vbo := _vbo v;
                          _data := _data v |};
               gl := ctx |}).
Proof. reflexivity. Qed.

Lemma __init___spec pos color width ctx :
  __init__ pos color width ctx
  = Ok (tt, {| self := {| _opts := updated pos color width defaults;
                          _program := None; _vbo := None; _data := None |};
               gl := ctx |}).
Proof. unfold __init__. rewrite set_data_spec. reflexivity. Qed.

(** ** The caches stay consistent *)

Lemma consistent_set_data pos color width w w' :
  set_data pos color width w = Ok (tt, w') -> consistent w'.
Proof.
  destruct w as [v ctx]. rewrite set_data_spec. intros [= <-].
  split; intros x Hx; discriminate Hx.
Qed.

Lemma consistent_set_transform tr w w' :
  consistent w -> set_transform tr w = Ok (tt, w') -> consistent w'.
Proof.
  destruct w as [v ctx]. intros [Hv _]. rewrite set_transform_spec.
  intros [= <-]. split.
  - intros vbo Hvbo. exact (Hv vbo Hvbo).
  - intros x Hx. discriminate Hx.
Qed.

(** A buffer built by this very build holds copies of the current
    arrays. *)
Lemma buffer_for_fresh v ctx p :
  _vbo v = None ->
  buffer_for v ctx p
  = {| vb_id := created ctx; vb_data := staged p (opts.color (_opts v)) |}.
Proof. intros H. unfold buffer_for. rewrite H. reflexivity. Qed.

(** The program a paint draws with is a compiled one over the buffer it
    draws from, assembled for the current transform and kind of color. *)
Lemma program_for_assembled v ctx p :
  consistent {| self := v; gl := ctx |} ->
  opts.pos (_opts v) = Some p ->
  exists o0,
    opts.transform o0 = opts.transform (_opts v)
    /\ color_is_array (opts.color o0) = color_is_array (opts.color (_opts v))
    /\ (_program v = None -> o0 = _opts v)
    /\ program_for v ctx p = assembled o0 p (buffer_for v ctx p) true.
Proof.
  intros [_ Hprog] Hp. unfold program_for.
  destruct (_program v) as [prog |] eqn:Hpr.
  - destruct (Hprog prog Hpr)
      as (p' & vbo & o0 & Hp' & _ & Hvbo & Htr & Hkind & -> & _).
    cbn [self gl] in *. rewrite Hp in Hp'. injection Hp' as <-.
    exists o0. unfold buffer_for. rewrite Hvbo.
    split; [exact Htr |]. split; [exact Hkind |].
    split; [intros H; discriminate H | reflexivity].
  - exists (_opts v). repeat split.
Qed.

Lemma program_for_compiled v ctx p :
  consistent {| self := v; gl := ctx |} ->
  opts.pos (_opts v) = Some p ->
  compiled (program_for v ctx p) = true.
Proof.
  intros Hc Hp.
  destruct (program_for_assembled v ctx p Hc Hp) as (o0 & _ & _ & _ & ->).
  reflexivity.
Qed.

Lemma consistent_painted v ctx p :
  consistent {| self := v; gl := ctx |} ->
  drawable v p ->
  ready {| self := v; gl := ctx |} = true ->
  consistent {| self := painted v ctx p; gl := painted_context v ctx p |}.
Proof.
  intros Hc Hd Hr. pose proof Hc as [Hv _].
  destruct (ready_drawable {| self := v; gl := ctx |} p Hd Hr)
    as [Hfits Hacc].
  destruct Hd as [Hp Hlen]. cbn [self gl] in *. split.
  - intros vbo [= <-].
    destruct (buffer_for_layout v ctx p Hv Hp) as (p0 & c0 & Hlay & _ & Hvd).
    exists p, p0, c0. cbn [self painted _opts _data].
    split; [exact Hp |]. split; [exact Hfits |]. split; [exact Hlay |].
    split; [exact Hvd | rewrite Hvd; reflexivity].
  - intros prog [= <-].
    destruct (program_for_assembled v ctx p Hc Hp)
      as (o0 & Htr & Hkind & _ & Hprog).
    exists p, (buffer_for v ctx p), o0.
    cbn [self gl painted _opts _vbo].
    repeat split; try assumption.
Qed.

(** A paint that gets past its guard on a world that is not ready
    raises. *)
Lemma paint_not_ready v ctx p :
  consistent {| self := v; gl := ctx |} ->
  drawable v p ->
  ready {| self := v; gl := ctx |} = false ->
  exists e, paint {| self := v; gl := ctx |} = Raise e.
Proof.
  intros [Hv Hprog] Hd Hr. pose proof Hd as [Hp Hlen].
  cbn [self gl] in *.
  unfold ready in Hr. cbn [self gl] in Hr. rewrite Hp in Hr.
  destruct (len p =? 0) eqn:E; [apply Nat.eqb_eq in E; lia |].
  cbn [orb] in Hr.
  destruct (_program v) as [prog |] eqn:Hpr.
  - destruct (Hprog prog Hpr)
      as (p' & vbo & o0 & Hp' & _ & Hvbo & _ & _ & _ & Hacc).
    cbn [self gl] in *.
    destruct (Hv vbo Hvbo) as (p'' & p0 & c0 & Hp'' & Hfits & _).
    rewrite Hp in Hp''. injection Hp'' as <-.
    rewrite Hfits, Hacc in Hr. discriminate Hr.
  - destruct (fits p (opts.color (_opts v))) eqn:Hfits.
    + cbn [andb] in Hr.
      destruct (paint_refused v ctx p Hv Hd Hpr Hfits Hr) as [H | H];
        eexists; exact H.
    + destruct (_vbo v) as [vbo |] eqn:Hvbo.
      * destruct (Hv vbo Hvbo) as (p'' & p0 & c0 & Hp'' & Hf & _).
        rewrite Hp in Hp''. injection Hp'' as <-.
        rewrite Hf in Hfits. discriminate Hfits.
      * unfold fits in Hfits.
        destruct (stageable p (opts.color (_opts v))) eqn:Hst.
        -- cbn [andb] in Hfits. eexists.
           exact (paint_unselectable v ctx p Hd Hpr Hvbo Hst Hfits).
        -- eexists. exact (paint_unstageable v ctx p Hd Hpr Hvbo Hst).
Qed.

Lemma consistent_paint w w' :
  consistent w -> paint w = Ok (tt, w') -> consistent w'.
Proof.
  intros Hc Hrun.
  destruct (opts.pos (_opts (self w))) as [p |] eqn:Hp.
  - destruct (Nat.eq_dec (len p) 0) as [Hz | Hnz].
    + rewrite paint_noop in Hrun by (rewrite Hp; exact Hz).
      injection Hrun as <-. exact Hc.
    + destruct w as [v ctx].
      assert (Hd : drawable v p) by (split; [exact Hp | lia]).
      destruct (ready {| self := v; gl := ctx |}) eqn:Hr.
      * rewrite (paint_spec _ _ _ Hc Hd Hr) in Hrun. injection Hrun as <-.
        apply consistent_painted; assumption.
      * destruct (paint_not_ready v ctx p Hc Hd Hr) as [e He].
        rewrite He in Hrun. discriminate Hrun.
  - rewrite paint_noop in Hrun by (rewrite Hp; exact I).
    injection Hrun as <-. exact Hc.
Qed.

(** A write into the arrays changes neither their layout nor the
    caches. *)
Lemma consistent_caller_writes_pos items w :
  consistent w -> consistent (caller_writes_pos items w).
Proof.
  destruct w as [v ctx]. intros [Hv Hprog]. split.
  - intros vbo Hvbo. cbn [self caller_writes_pos _vbo] in Hvbo.
    destruct (Hv vbo Hvbo) as (p & p0 & c0 & Hp & Hfits & Hlay & Hvd & Hd).
    cbn [self] in *.
    exists (written items p), p0, c0.
    cbn [self gl caller_writes_pos _opts _data opts.pos opts.color].
    rewrite Hp. split; [reflexivity |]. split; [exact Hfits |].
    split; [exact Hlay |]. split; assumption.
  - intros prog Hpr. cbn [self caller_writes_pos _program] in Hpr.
    destruct (Hprog prog Hpr)
      as (p & vbo & o0 & Hp & Hlen & Hvbo & Htr & Hkind & Heq & Hacc).
    cbn [self gl] in *.
    exists (written items p), vbo, o0.
    cbn [self gl caller_writes_pos _opts _vbo opts.pos opts.color
         opts.transform].
    rewrite Hp. repeat split; assumption.
Qed.

Lemma consistent_caller_writes_color items w :
  consistent w -> consistent (caller_writes_color items w).
Proof.
  destruct w as [v ctx]. intros [Hv Hprog].
  assert (Hkind :
    forall c, color_is_array
                match c with
                | ColorArray a => ColorArray (written items a)
                | ColorTuple _ => ColorTuple items
                end = color_is_array c)
    by (intros [t | a]; reflexivity).
  split.
  - intros vbo Hvbo. cbn [self caller_writes_color _vbo] in Hvbo.
    destruct (Hv vbo Hvbo)
      as (p & p0 & c0 & Hp & Hfits & (Hs & Hk & Hcs) & Hvd & Hd).
    cbn [self] in *.
    exists p, p0, c0.
    cbn [self gl caller_writes_color _opts _data opts.pos opts.color].
    split; [exact Hp |].
    split; [destruct (opts.color (_opts v)) as [t | a]; exact Hfits |].
    split; [| split; assumption].
    split; [exact Hs |]. rewrite Hkind. split; [exact Hk |].
    intros Harr. rewrite (Hcs Harr).
    destruct (opts.color (_opts v)) as [t | a]; [discriminate Harr |].
    reflexivity.
  - intros prog Hpr. cbn [self caller_writes_color _program] in Hpr.
    destruct (Hprog prog Hpr)
      as (p & vbo & o0 & Hp & Hlen & Hvbo & Htr & Hk & Heq & Hacc).
    cbn [self gl] in *.
    exists p, vbo, o0.
    cbn [self gl caller_writes_color _opts _vbo opts.pos opts.color
         opts.transform].
    rewrite Hkind. repeat split; assumption.
Qed.

Lemma reachable_consistent w : reachable w -> consistent w.
Proof.
  induction 1 as [pos color width ctx w H | pos color width w w' _ _ H
                 | tr w w' _ IH H | w w' _ IH H
                 | items w _ IH | items w _ IH].
  - unfold __init__ in H. eapply consistent_set_data. exact H.
  - eapply consistent_set_data. exact H.
  - eapply consistent_set_transform; eassumption.
  - eapply consistent_paint; eassumption.
  - apply consistent_caller_writes_pos. exact IH.
  - apply consistent_caller_writes_color. exact IH.
Qed.

(** A cached vertex buffer is one of the buffers created so far. *)
Lemma reachable_buffer_known w :
  reachable w ->
  forall vbo, _vbo (self w) = Some vbo -> vb_id vbo < created (gl w).
Proof.
  induction 1 as [pos color width ctx w H | pos color width w w' _ _ H
                 | tr w w' _ IH H | w w' Hr IH H
                 | items w _ IH | items w _ IH]; intros vbo Hvbo.
  - rewrite __init___spec in H. injection H as <-. discriminate Hvbo.
  - destruct w as [v ctx]. rewrite set_data_spec in H. injection H as <-.
    discriminate Hvbo.
  - destruct w as [v ctx]. rewrite set_transform_spec in H.
    injection H as <-. exact (IH vbo Hvbo).
  - pose proof (reachable_consistent w Hr) as Hc.
    destruct (opts.pos (_opts (self w))) as [p |] eqn:Hp.
    + destruct (Nat.eq_dec (len p) 0) as [Hz | Hnz].
      * rewrite paint_noop in H by (rewrite Hp; exact Hz).
        injection H as <-. exact (IH vbo Hvbo).
      * destruct w as [v ctx]. cbn [self gl] in *.
        assert (Hd : drawable v p) by (split; [exact Hp | lia]).
        destruct (ready {| self := v; gl := ctx |}) eqn:Hready.
        -- rewrite (paint_spec _ _ _ Hc Hd Hready) in H. injection H as <-.
           cbn [self gl painted painted_context _vbo created] in *.
           injection Hvbo as <-. unfold buffer_for, buffers_after.
           destruct (_vbo v) as [vbo0 |].
           ++ exact (IH vbo0 eq_refl).
           ++ cbn [vb_id]. lia.
        -- destruct (paint_not_ready v ctx p Hc Hd Hready) as [e He].
           rewrite He in H. discriminate H.
    + rewrite paint_noop in H by (rewrite Hp; exact I).
      injection H as <-. exact (IH vbo Hvbo).
  - exact (IH vbo Hvbo).
  - exact (IH vbo Hvbo).
Qed.

(** ** Reachable worlds *)

Lemma reachable_constructed pos color width :
  reachable (constructed pos color width).
Proof.
  apply (reach_init pos color width fresh_context). apply __init___spec.
Qed.

Lemma paint_ready w :
  consistent w -> ready w = true -> exists w', paint w = Ok (tt, w').
Proof.
  intros Hc Hr. destruct (opts.pos (_opts (self w))) as [p |] eqn:Hp.
  - destruct (Nat.eq_dec (len p) 0) as [Hz | Hnz].
    + exists w. apply paint_noop. rewrite Hp. exact Hz.
    + destruct w as [v ctx]. eexists. apply (paint_spec v ctx p Hc); [| exact Hr].
      split; [exact Hp | lia].
  - exists w. apply paint_noop. rewrite Hp. exact I.
Qed.

Lemma reachable_after_paint w : reachable w -> reachable (after_paint w).
Proof.
  intros Hr. unfold after_paint.
  destruct (paint w) as [[[] w'] | e] eqn:E.
  - exact (reach_paint w w' Hr E).
  - exact Hr.
Qed.

Example line30_first_paint :
  journal (gl line30_painted)
  = [ VertexBufferNew
        (staged (zeros 30 2) (ColorTuple [1%Q; 1%Q; 1%Q; 1%Q]));
      ProgramNew;
      SetHook "local_position"; SetHook "map_local_to_nd";
      SetHook "frag_color";
      LineWidth 1%Q; Compile; Draw "LINE_STRIP" 1%Q ].
Proof. vm_compute. reflexivity. Qed.

Example mismatched_paint_raises : paint mismatched = Raise ValueError.
Proof. vm_compute. reflexivity. Qed.

Lemma line30_painted_built : is_Some (_program (self line30_painted)).
Proof. vm_compute. eexists. reflexivity. Qed.

Lemma reachable_line30_painted : reachable line30_painted.
Proof. apply reachable_after_paint, reachable_constructed. Qed.

Lemma line30_ready : ready line30 = true.
Proof. vm_compute. reflexivity. Qed.

Lemma line30_painted_ready : ready line30_painted = true.
Proof. vm_compute. reflexivity. Qed.

Lemma line30_painted_buffer : _vbo (self line30_painted) = Some line30_buffer.
Proof. vm_compute. reflexivity. Qed.

Lemma line30_painted_drawable : drawable (self line30_painted) (zeros 30 2).
Proof. split; [vm_compute; reflexivity | cbn; lia]. Qed.

(** A visual that caches a program is ready to paint. *)
Lemma cached_program_ready w :
  consistent w -> is_Some (_program (self w)) -> ready w = true.
Proof.
  intros [Hv Hp] [prog Hprog].
  destruct (Hp prog Hprog)
    as (p & vbo & o0 & Hpos & Hlen & Hvbo & _ & _ & _ & Hacc).
  destruct (Hv vbo Hvbo) as (p' & p0 & c0 & Hpos' & Hfits & _).
  rewrite Hpos in Hpos'. injection Hpos' as <-.
  unfold ready. rewrite Hpos, Hfits, Hacc. apply orb_true_r.
Qed.

Lemma filter_draw_paint_calls v p :
  List.filter is_draw (paint_calls v p)
  = [Draw "LINE_STRIP" (opts.width (_opts v))].
Proof.
  unfold paint_calls, compile_calls, build_calls.
  destruct (_program v) as [prog |].
  - destruct (compiled prog); reflexivity.
  - destruct (_vbo v); reflexivity.
Qed.

(** A paint that gets past its guard with no cached program builds and
    compiles one, then draws under the current width. *)
Lemma paint_rebuilds w p :
  consistent w ->
  _program (self w) = None ->
  drawable (self w) p ->
  ready w = true ->
  exists w' prog calls,
    paint w = Ok (tt, w')
    /\ _program (self w') = Some prog
    /\ compiled prog = true
    /\ line_width (gl w') = opts.width (_opts (self w))
    /\ journal (gl w') = journal (gl w) ++ calls
    /\ In ProgramNew calls
    /\ In Compile calls
    /\ List.filter is_draw calls
       = [Draw "LINE_STRIP" (opts.width (_opts (self w)))].
Proof.
  destruct w as [v ctx]. cbn [self gl].
  intros Hc Hnone Hd Hr. eexists. eexists. exists (paint_calls v p).
  split; [apply (paint_spec v ctx p Hc Hd Hr) |].
  cbn [self gl painted painted_context _program line_width journal].
  split; [reflexivity |].
  split; [apply (program_for_compiled v ctx p Hc), Hd |].
  split; [reflexivity |]. split; [reflexivity |].
  split; [| split; [| apply filter_draw_paint_calls]].
  - unfold paint_calls, build_calls. rewrite Hnone.
    rewrite !in_app_iff. left. right. simpl. tauto.
  - unfold paint_calls, compile_calls. rewrite Hnone.
    rewrite !in_app_iff. right. simpl. tauto.
Qed.

Lemma rebuilt_when_discarded w :
  consistent w -> _program (self w) = None -> rebuilt_by_next_paint w.
Proof.
  intros Hc Hnone p Hd Hr.
  destruct (paint_rebuilds w p Hc Hnone Hd Hr)
    as (w' & prog & calls & H1 & H2 & H3 & _ & H5 & H6 & H7 & _).
  exists w', prog, calls. repeat split; assumption.
Qed.

(** ** set_data and the transform property *)

(** C5: set_data updates exactly the fields passed with a value other than
    None; pos, color and width left as None keep their prior value (and the
    transform is never touched). *)
Theorem set_data_partial_update pos color width w :
  exists w',
    set_data pos color width w = Ok (tt, w')
    /\ opts.pos (_opts (self w'))
       = match pos with
         | Some p => Some p
         | None => opts.pos (_opts (self w))
         end
    /\ opts.color (_opts (self w'))
       = match color with
         | Some c => c
         | None => opts.color (_opts (self w))
         end
    /\ opts.width (_opts (self w'))
       = match width with
         | Some x => x
         | None => opts.width (_opts (self w))
         end
    /\ opts.transform (_opts (self w')) = opts.transform (_opts (self w)).
Proof.
  destruct w as [v ctx]. eexists. split; [apply set_data_spec |].
  repeat split.
Qed.

(** C8: on every LineVisual, assigning a transform and calling set_data
    (whatever fields it is given) both leave no cached program, so that the
    next paint that gets past its guard, on arrays that fit and shaders
    the driver accepts, constructs a program and compiles it before it
    draws. *)
Theorem invalidation_discards_program w :
  reachable w ->
  (forall tr, discards_program (set_transform tr) w)
  /\ (forall pos color width, discards_program (set_data pos color width) w).
Proof.
  intros Hr. pose proof (reachable_consistent w Hr) as Hc.
  destruct w as [v ctx]. split.
  - intros tr. eexists. split; [apply set_transform_spec |].
    split; [reflexivity |].
    apply rebuilt_when_discarded; [| reflexivity].
    exact (consistent_set_transform tr _ _ Hc (set_transform_spec tr v ctx)).
  - intros pos color width. eexists. split; [apply set_data_spec |].
    split; [reflexivity |].
    apply rebuilt_when_discarded; [| reflexivity].
    exact (consistent_set_data pos color width _ _
             (set_data_spec pos color width v ctx)).
Qed.

(** On the painted thirty-point line, a new transform the driver accepts
    and new positions both lead to a paint that constructs and compiles a
    program. *)
Lemma invalidation_discards_program_witness :
  reachable line30_painted
  /\ (exists w' w'' prog calls,
        set_transform (GLSLTransform "scale") line30_painted = Ok (tt, w')
        /\ _program (self w') = None
        /\ drawable (self w') (zeros 30 2)
        /\ ready w' = true
        /\ paint w' = Ok (tt, w'')
        /\ _program (self w'') = Some prog
        /\ compiled prog = true
        /\ journal (gl w'') = journal (gl w') ++ calls
        /\ In ProgramNew calls
        /\ In Compile calls)
  /\ (exists w' w'' prog calls,
        set_data (Some (zeros 10 2)) None None line30_painted = Ok (tt, w')
        /\ _program (self w') = None
        /\ drawable (self w') (zeros 10 2)
        /\ ready w' = true
        /\ paint w' = Ok (tt, w'')
        /\ _program (self w'') = Some prog
        /\ compiled prog = true
        /\ journal (gl w'') = journal (gl w') ++ calls
        /\ In ProgramNew calls
        /\ In Compile calls).
Proof.
  split; [exact reachable_line30_painted |].
  destruct (invalidation_discards_program line30_painted
              reachable_line30_painted) as [Htr Hdata].
  split.
  - destruct (Htr (GLSLTransform "scale")) as (w' & Hset & Hnone & Hnext).
    assert (E : w' = with_transform (GLSLTransform "scale") line30_painted)
      by (unfold with_transform; rewrite Hset; reflexivity).
    assert (Hd : drawable (self w') (zeros 30 2))
      by (rewrite E; split; [vm_compute; reflexivity | cbn; lia]).
    assert (Hr : ready w' = true) by (rewrite E; vm_compute; reflexivity).
    destruct (Hnext (zeros 30 2) Hd Hr)
      as (w'' & prog & calls & H1 & H2 & H3 & H4 & H5 & H6).
    exists w', w'', prog, calls. repeat split; try assumption; apply Hd.
  - destruct (Hdata (Some (zeros 10 2)) None None)
      as (w' & Hset & Hnone & Hnext).
    assert (E : w' = with_data (Some (zeros 10 2)) None None line30_painted)
      by (unfold with_data; rewrite Hset; reflexivity).
    assert (Hd : drawable (self w') (zeros 10 2))
      by (rewrite E; split; [vm_compute; reflexivity | cbn; lia]).
    assert (Hr : ready w' = true) by (rewrite E; vm_compute; reflexivity).
    destruct (Hnext (zeros 10 2) Hd Hr)
      as (w'' & prog & calls & H1 & H2 & H3 & H4 & H5 & H6).
    exists w', w'', prog, calls. repeat split; try assumption; apply Hd.
Defined.

(** C10: assigning a transform to a LineVisual that caches a vertex buffer
    discards the program only: the vertex buffer and the staged array stay
    as they are, and the next program build runs on that same buffer
    object without creating a new one; set_data discards the vertex buffer
    as well as the program. *)
Theorem transform_keeps_vertex_buffer w vbo :
  reachable w ->
  _vbo (self w) = Some vbo ->
  (forall tr, transform_keeps_buffer tr vbo w)
  /\ (forall pos color width, set_data_discards_both pos color width w).
Proof.
  intros Hr Hvbo. pose proof (reachable_consistent w Hr) as Hc.
  destruct w as [v ctx]. cbn [self] in Hvbo. split.
  - intros tr.
    pose proof (consistent_set_transform tr _ _ Hc (set_transform_spec tr v ctx))
      as [Hv' _].
    cbn [self] in Hv'.
    destruct (Hv' vbo Hvbo) as (p & p0 & c0 & Hp & Hfits & _ & Hvd & Hd).
    cbn [_opts _data _vbo opts.pos opts.color] in Hp, Hfits, Hvd, Hd.
    eexists. eexists. exists p. eexists.
    split; [apply set_transform_spec |].
    cbn [self gl _program _vbo _data].
    split; [reflexivity |]. split; [exact Hvbo |]. split; [reflexivity |].
    split; [apply (_build_program_spec _ ctx p Hv' Hp Hfits) |].
    unfold after_build, built_context, build_calls, buffer_for, buffers_after.
    cbn [self gl _opts _program _vbo _data opts.pos opts.color journal
         created].
    rewrite Hvbo.
    split; [exact Hp |]. split; [reflexivity |].
    split; [rewrite Hvd; symmetry; exact Hd |].
    split; [reflexivity |]. split; [reflexivity |].
    split; [reflexivity |]. split; [left; reflexivity | reflexivity].
  - intros pos color width. eexists. split; [apply set_data_spec |].
    split; reflexivity.
Qed.

Lemma transform_keeps_vertex_buffer_witness :
  reachable line30_painted
  /\ _vbo (self line30_painted) = Some line30_buffer
  /\ (forall tr, transform_keeps_buffer tr line30_buffer line30_painted)
  /\ (forall pos color width,
        set_data_discards_both pos color width line30_painted).
Proof.
  split; [exact reachable_line30_painted |].
  split; [exact line30_painted_buffer |].
  exact (transform_keeps_vertex_buffer line30_painted line30_buffer
           reachable_line30_painted line30_painted_buffer).
Defined.

(** ** paint *)

Lemma filter_build_calls v p :
  length (List.filter is_program_new (build_calls v p)) = 1
  /\ List.filter is_compile (build_calls v p) = []
  /\ List.filter is_draw (build_calls v p) = [].
Proof. unfold build_calls. destruct (_vbo v); repeat split. Qed.

(** C7: on every LineVisual whose arrays can be staged and whose shaders
    the driver accepts, two paints in a row with nothing in between
    construct at most one program and compile at most once; the second
    paint builds nothing and keeps the program the first one left. *)
Theorem paint_twice_builds_once w :
  reachable w -> ready w = true -> second_paint_reuses_program w.
Proof.
  intros Hr Hready. pose proof (reachable_consistent w Hr) as Hc.
  unfold second_paint_reuses_program.
  destruct (opts.pos (_opts (self w))) as [p |] eqn:Hp.
  - destruct (Nat.eq_dec (len p) 0) as [Hz | Hnz].
    + exists w, w, [], [].
      assert (Hn : paint w = Ok (tt, w))
        by (apply paint_noop; rewrite Hp; exact Hz).
      rewrite app_nil_r. repeat split; auto.
      all: destruct H as [Hp' Hlen]; rewrite Hp in Hp';
        injection Hp' as <-; lia.
    + destruct w as [v ctx]. cbn [self gl] in *.
      assert (Hd : drawable v p) by (split; [exact Hp | lia]).
      pose proof (paint_spec v ctx p Hc Hd Hready) as H1.
      set (v1 := painted v ctx p) in *.
      set (ctx1 := painted_context v ctx p) in *.
      assert (Hc1 : consistent {| self := v1; gl := ctx1 |})
        by (apply consistent_painted; assumption).
      assert (Hd1 : drawable v1 p) by exact Hd.
      assert (Hr1 : ready {| self := v1; gl := ctx1 |} = true)
        by (apply cached_program_ready; [exact Hc1 | eexists; reflexivity]).
      pose proof (paint_spec v1 ctx1 p Hc1 Hd1 Hr1) as H2.
      eexists. eexists. exists (paint_calls v p). exists (paint_calls v1 p).
      split; [exact H1 |]. split; [exact H2 |].
      cbn [self gl journal _program painted painted_context].
      split; [reflexivity |]. split; [reflexivity |].
      pose proof (program_for_compiled v ctx p Hc Hp) as Hcomp.
      unfold paint_calls, compile_calls.
      cbn [v1 painted _program _opts].
      rewrite Hcomp.
      split; [reflexivity |].
      rewrite !List.filter_app, !length_app.
      destruct (filter_build_calls v p) as (Hb1 & Hb2 & Hb3).
      clear H1 H2 Hc1 Hd1 Hr1. subst v1 ctx1.
      unfold program_for in Hcomp.
      repeat (cbn [painted _program]; unfold program_for).
      destruct (_program v) as [prog |].
      * rewrite Hcomp.
        split; [| split; [| split; [reflexivity |]]]; try (simpl; lia).
        intros p' _. split; [eexists; split; [reflexivity | exact Hcomp] |].
        split; [reflexivity |]. split; [reflexivity |].
        intros H; discriminate H.
      * rewrite Hb1, Hb2, Hb3.
        split; [| split; [| split; [reflexivity |]]]; try (simpl; lia).
        intros p' _. split; [eexists; split; reflexivity |].
        repeat split.
  - exists w, w, [], [].
    assert (Hn : paint w = Ok (tt, w))
      by (apply paint_noop; rewrite Hp; exact I).
    rewrite app_nil_r. repeat split; auto.
    all: destruct H as [Hp' _]; rewrite Hp in Hp'; discriminate Hp'.
Qed.

Lemma paint_twice_builds_once_witness :
  reachable line30
  /\ ready line30 = true
  /\ drawable (self line30) (zeros 30 2)
  /\ _program (self line30) = None
  /\ second_paint_reuses_program line30.
Proof.
  split; [exact (reachable_constructed _ _ _) |].
  split; [exact line30_ready |].
  split; [split; [reflexivity | cbn; lia] |].
  split; [reflexivity |].
  exact (paint_twice_builds_once line30 (reachable_constructed _ _ _)
           line30_ready).
Defined.

(** C6, as worded, fails on a visual whose position array is set but has
    no row: paint returns at its guard there too, leaving no program. *)
Lemma paint_noop_on_empty_positions :
  opts.pos (_opts (self line0)) = Some (zeros 0 2)
  /\ paint line0 = Ok (tt, line0)
  /\ ~ noop_exactly_when_unset line0.
Proof.
  split; [reflexivity |]. split; [reflexivity |].
  intros [_ H].
  destruct H as (w' & calls & Hrun & [prog Hprog] & _); [discriminate |].
  change (paint line0) with (@Ok (unit * World) (tt, line0)) in Hrun.
  injection Hrun as <-. discriminate Hprog.
Qed.

(** C6, amended: on every LineVisual, paint is a no-op when the position
    data is not set or has length zero.  Otherwise, when the arrays can be
    staged and the driver accepts the shaders, it ensures a compiled
    program, sets the line width to the current width and issues one
    LINE_STRIP draw under that width; when nothing is cached and a
    per-vertex color array does not broadcast to the positions it raises
    ValueError, and when the driver refuses the shaders it raises
    ShaderCompileError or ShaderLinkError. *)
Theorem paint_guard w :
  reachable w -> noop_when_unset_or_empty w.
Proof.
  intros Hr. pose proof (reachable_consistent w Hr) as Hc.
  split; [apply paint_noop |].
  destruct w as [v ctx]. cbn [self gl] in *. split; [| split].
  - intros p Hd Hready.
    eexists. eexists. exists (paint_calls v p).
    split; [apply (paint_spec v ctx p Hc Hd Hready) |].
    cbn [self gl _program painted painted_context line_width journal].
    split; [reflexivity |].
    split; [apply (program_for_compiled v ctx p Hc), Hd |].
    split; [reflexivity |]. split; [reflexivity |].
    apply filter_draw_paint_calls.
  - intros p Hd Hpr Hvbo Hst. exact (paint_unstageable v ctx p Hd Hpr Hvbo Hst).
  - intros p Hd Hpr Hfits Hno. destruct Hc as [Hv _].
    exact (paint_refused v ctx p Hv Hd Hpr Hfits Hno).
Qed.

Lemma refused30_facts :
  reachable refused30
  /\ drawable (self refused30) (zeros 30 2)
  /\ _program (self refused30) = None
  /\ fits (zeros 30 2) (opts.color (_opts (self refused30))) = true
  /\ accepted (gl refused30) (opts.transform (_opts (self refused30))) = false.
Proof.
  split.
  - apply (reach_set_transform (GLSLTransform "warp") line30);
      [apply reachable_constructed | reflexivity].
  - split; [split; [reflexivity | cbn; lia] |].
    split; [reflexivity |]. split; vm_compute; reflexivity.
Qed.

Lemma mismatched_facts :
  drawable (self mismatched) (zeros 3 2)
  /\ _program (self mismatched) = None
  /\ _vbo (self mismatched) = None
  /\ stageable (zeros 3 2) (opts.color (_opts (self mismatched))) = false.
Proof.
  split; [split; [reflexivity | cbn; lia] |].
  split; [reflexivity |]. split; [reflexivity |]. vm_compute. reflexivity.
Qed.

(** The thirty-point line is drawn, three positions with two colors raise
    ValueError, and a transform the driver refuses raises
    ShaderCompileError. *)
Lemma paint_guard_witness :
  (reachable line30 /\ drawable (self line30) (zeros 30 2)
   /\ ready line30 = true /\ noop_when_unset_or_empty line30)
  /\ (reachable mismatched /\ paint mismatched = Raise ValueError)
  /\ (reachable refused30
      /\ (paint refused30 = Raise ShaderCompileError
          \/ paint refused30 = Raise ShaderLinkError)).
Proof.
  split; [| split].
  - split; [exact (reachable_constructed _ _ _) |].
    split; [split; [reflexivity | cbn; lia] |].
    split; [exact line30_ready |].
    exact (paint_guard line30 (reachable_constructed _ _ _)).
  - split; [exact (reachable_constructed _ _ _) |].
    destruct (paint_guard mismatched (reachable_constructed _ _ _))
      as (_ & _ & Hvalue & _).
    destruct mismatched_facts as (Hd & Hpr & Hvbo & Hst).
    exact (Hvalue (zeros 3 2) Hd Hpr Hvbo Hst).
  - destruct refused30_facts as (Hr & Hd & Hpr & Hfits & Hno).
    split; [exact Hr |].
    destruct (paint_guard refused30 Hr) as (_ & _ & _ & Hrefused).
    exact (Hrefused (zeros 30 2) Hd Hpr Hfits Hno).
Defined.

(** C1, as worded, fails on the painted thirty-point line: its program is
    built, and set_data(width=3) leaves [None] in its place. *)
Lemma width_only_discards_program :
  reachable line30_painted
  /\ is_Some (_program (self line30_painted))
  /\ ~ width_only_keeps_program line30_painted 3%Q.
Proof.
  split; [exact reachable_line30_painted |].
  split; [exact line30_painted_built |].
  intros (w1 & w2 & calls & Hset & Hkeep & _).
  destruct line30_painted_built as [prog Hprog].
  destruct line30_painted as [v ctx]. rewrite set_data_spec in Hset.
  injection Hset as <-. cbn [self _program] in *.
  rewrite Hprog in Hkeep. discriminate Hkeep.
Qed.

(** C1, amended: on every LineVisual in a built state, set_data with only
    the width discards the cached program and vertex buffer; the next
    paint constructs and compiles the program again, and it sets and draws
    under the new width. *)
Theorem width_only_forces_rebuild w wd :
  reachable w ->
  is_Some (_program (self w)) ->
  width_only_rebuilds w wd.
Proof.
  intros Hr Hbuilt. pose proof (reachable_consistent w Hr) as Hc.
  pose proof (cached_program_ready w Hc Hbuilt) as Hready.
  destruct Hbuilt as [prog Hprog]. destruct Hc as [_ Hpc].
  destruct (Hpc prog Hprog) as (p & vbo & o0 & Hp & Hlen & _).
  destruct w as [v ctx]. cbn [self gl] in *.
  pose proof (set_data_spec None None (Some wd) v ctx) as Hset.
  pose proof (consistent_set_data _ _ _ _ _ Hset) as Hc'.
  match type of Hset with _ = Ok (_, ?w1) =>
    assert (Hd : drawable (self w1) p) by (split; [exact Hp | exact Hlen]);
    assert (Hr1 : ready w1 = true) by exact Hready;
    destruct (paint_rebuilds w1 p Hc' eq_refl Hd Hr1)
      as (w2 & prog2 & calls & H1 & _ & _ & H4 & H5 & H6 & H7 & H8);
    exists w1, w2, calls
  end.
  repeat split; assumption.
Qed.

Lemma width_only_forces_rebuild_witness :
  reachable line30_painted
  /\ is_Some (_program (self line30_painted))
  /\ width_only_rebuilds line30_painted 3%Q.
Proof.
  split; [exact reachable_line30_painted |].
  split; [exact line30_painted_built |].
  exact (width_only_forces_rebuild line30_painted 3%Q
           reachable_line30_painted line30_painted_built).
Defined.

(** ** The functions a build selects *)

Lemma assembled_local_position o p vbo b :
  hooks (assembled o p vbo b) !! "local_position"
  = Some (position_function p vbo).
Proof. unfold assembled. cbn [hooks]. by simplify_map_eq. Qed.

Lemma assembled_map_local_to_nd o p vbo b :
  hooks (assembled o p vbo b) !! "map_local_to_nd"
  = Some (bind_map (opts.transform o) "map_local_to_nd").
Proof. unfold assembled. cbn [hooks]. by simplify_map_eq. Qed.

Lemma assembled_frag_color o p vbo b :
  hooks (assembled o p vbo b) !! "frag_color"
  = Some (color_function (opts.color o) vbo).
Proof. unfold assembled. cbn [hooks]. by simplify_map_eq. Qed.

Lemma assembled_post_hook o p vbo b :
  hooks (assembled o p vbo b) !! "post_hook" = None.
Proof. unfold assembled. cbn [hooks]. by simplify_map_eq. Qed.

Lemma xy_function_arity vbo : attribute_arity (xy_function vbo) = 2.
Proof. unfold xy_function, attribute_arity. cbn [fn_roles]. vm_compute. reflexivity. Qed.

Lemma xyz_function_arity vbo : attribute_arity (xyz_function vbo) = 3.
Proof. unfold xyz_function, attribute_arity. cbn [fn_roles]. vm_compute. reflexivity. Qed.

Lemma position_function_two p vbo :
  shape_last p = 2 -> position_function p vbo = xy_function vbo.
Proof.
  intros H. unfold position_function.
  rewrite components_read_wide by lia. rewrite H. reflexivity.
Qed.

Lemma position_function_more p vbo :
  2 < shape_last p -> position_function p vbo = xyz_function vbo.
Proof.
  intros H. unfold position_function.
  rewrite components_read_wide by lia.
  destruct (shape_last p =? 2) eqn:E; [apply Nat.eqb_eq in E; lia |].
  reflexivity.
Qed.

(** C2: for every LineVisual whose arrays can be staged, the program build
    selects the position function by the last axis of the position array:
    with 2 components XYInputFunc, binding xy_pos as a vec2 attribute and
    z_pos as a float uniform; with 3 components XYZInputFunc, binding only
    xyz_pos as a vec3 attribute; in both cases the components of the
    attribute input are as many as pos.shape[-1]. *)
Theorem position_function_by_components w p :
  reachable w ->
  opts.pos (_opts (self w)) = Some p ->
  fits p (opts.color (_opts (self w))) = true ->
  position_function_selected w p.
Proof.
  intros Hr Hp Hfits. pose proof (reachable_consistent w Hr) as [Hv _].
  destruct w as [v ctx]. cbn [self] in *.
  eexists. eexists. eexists.
  split; [apply (_build_program_spec v ctx p Hv Hp Hfits) |].
  cbn [self after_build _program].
  split; [reflexivity |].
  split; [apply assembled_local_position |].
  split; intros H.
  - rewrite (position_function_two p _ H), H.
    split; [reflexivity |]. split; [reflexivity |]. apply xy_function_arity.
  - rewrite (position_function_more p _) by lia. rewrite H.
    split; [reflexivity |]. split; [reflexivity |]. apply xyz_function_arity.
Qed.

Lemma colored30_fits :
  fits (zeros 30 3) (opts.color (_opts (self colored30))) = true.
Proof. vm_compute. reflexivity. Qed.

Lemma line30_fits :
  fits (zeros 30 2) (opts.color (_opts (self line30))) = true.
Proof. vm_compute. reflexivity. Qed.

(** Two components on the thirty-point line, three on the colored one. *)
Lemma position_function_by_components_witness :
  (reachable line30
   /\ opts.pos (_opts (self line30)) = Some (zeros 30 2)
   /\ fits (zeros 30 2) (opts.color (_opts (self line30))) = true
   /\ shape_last (zeros 30 2) = 2
   /\ position_function_selected line30 (zeros 30 2))
  /\ (reachable colored30
      /\ opts.pos (_opts (self colored30)) = Some (zeros 30 3)
      /\ fits (zeros 30 3) (opts.color (_opts (self colored30))) = true
      /\ shape_last (zeros 30 3) = 3
      /\ position_function_selected colored30 (zeros 30 3)).
Proof.
  split.
  - split; [exact (reachable_constructed _ _ _) |].
    split; [reflexivity |]. split; [exact line30_fits |].
    split; [reflexivity |].
    exact (position_function_by_components line30 (zeros 30 2)
             (reachable_constructed _ _ _) eq_refl line30_fits).
  - split; [exact (reachable_constructed _ _ _) |].
    split; [reflexivity |]. split; [exact colored30_fits |].
    split; [reflexivity |].
    exact (position_function_by_components colored30 (zeros 30 3)
             (reachable_constructed _ _ _) eq_refl colored30_fits).
Defined.

(** C3, as worded for every per-vertex color array, fails on three
    positions given two colors: the color is an ndarray of two dimensions,
    and the assignment into the color column raises ValueError, so the
    build selects nothing. *)
Lemma mismatched_colors_raise :
  reachable mismatched
  /\ opts.pos (_opts (self mismatched)) = Some (zeros 3 2)
  /\ opts.color (_opts (self mismatched)) = ColorArray (zeros 2 4)
  /\ 1 < ndim (zeros 2 4)
  /\ _build_program mismatched = Raise ValueError
  /\ ~ color_function_selected mismatched.
Proof.
  split; [exact (reachable_constructed _ _ _) |].
  split; [reflexivity |]. split; [reflexivity |]. split; [cbn; lia |].
  assert (H : _build_program mismatched = Raise ValueError)
    by (vm_compute; reflexivity).
  split; [exact H |].
  intros (w' & prog & vbo & d & g & Hrun & _).
  rewrite H in Hrun. discriminate Hrun.
Qed.

(** C3, amended: on every LineVisual with positions set whose arrays can
    be staged (a per-vertex color array broadcasts to the rows of the
    positions), the program build stages a color column exactly when the
    color is an ndarray of more than one dimension, and in that case binds
    frag_color to the attribute-based RGBAAttributeFunc whose input_color
    slot is the color column of the vertex buffer, a float32 copy of the
    color array, not a single uniform value. *)
Theorem per_vertex_color_selects_attribute_function w p :
  reachable w ->
  opts.pos (_opts (self w)) = Some p ->
  fits p (opts.color (_opts (self w))) = true ->
  color_function_selected w.
Proof.
  intros Hr Hp Hfits. pose proof (reachable_consistent w Hr) as [Hv _].
  destruct w as [v ctx]. cbn [self] in *.
  destruct (buffer_for_layout v ctx p Hv Hp)
    as (p0 & c0 & (Hs & Hk & Hcs) & Hfresh & Hvd).
  eexists. eexists. eexists. eexists. eexists.
  split; [apply (_build_program_spec v ctx p Hv Hp Hfits) |].
  cbn [self after_build _program _vbo _data].
  split; [reflexivity |]. split; [reflexivity |]. split; [reflexivity |].
  split; [reflexivity |].
  split; [apply assembled_frag_color |].
  split; [rewrite Hvd, staged_has_color; exact Hk |].
  intros a Ha Hdim. unfold color_function. rewrite Ha in *.
  assert (Hc : color_is_array (ColorArray a) = true)
    by (apply Nat.ltb_lt; exact Hdim).
  rewrite Hc in *. specialize (Hcs eq_refl). cbn [np_array] in Hcs.
  split; [reflexivity |]. split; [reflexivity |]. split; [reflexivity |].
  rewrite Hvd. unfold staged. rewrite Hk. cbn [rec_columns rec_dtype].
  split.
  - eexists. split; [apply lookup_insert_eq |]. cbn [copied_from].
    split; [exact Hcs |].
    intros Hnone. destruct (Hfresh Hnone) as [_ ->]. reflexivity.
  - simpl find_field. unfold shape_last. rewrite Hcs. reflexivity.
Qed.

Lemma per_vertex_color_selects_attribute_function_witness :
  reachable colored30
  /\ opts.pos (_opts (self colored30)) = Some (zeros 30 3)
  /\ fits (zeros 30 3) (opts.color (_opts (self colored30))) = true
  /\ opts.color (_opts (self colored30)) = ColorArray (zeros 30 4)
  /\ 1 < ndim (zeros 30 4)
  /\ color_function_selected colored30.
Proof.
  split; [exact (reachable_constructed _ _ _) |].
  split; [reflexivity |]. split; [exact colored30_fits |].
  split; [reflexivity |]. split; [cbn; lia |].
  exact (per_vertex_color_selects_attribute_function colored30 (zeros 30 3)
           (reachable_constructed _ _ _) eq_refl colored30_fits).
Defined.

Lemma hook_names_build_calls v p :
  hook_names (build_calls v p)
  = ["local_position"; "map_local_to_nd"; "frag_color"].
Proof. unfold build_calls. destruct (_vbo v); reflexivity. Qed.

(** C9: the vertex template declares local_position() returning vec4,
    map_local_to_nd(vec4) returning vec4 and post_hook() returning nothing,
    the fragment template declares frag_color() returning vec4, and they
    declare nothing else; every program build that gets its arrays staged
    binds local_position, map_local_to_nd and frag_color, and leaves
    post_hook unbound. *)
Theorem hook_contract :
  prototypes vertex_shader
  = [ {| proto_rtype := "vec4"; proto_name := "local_position";
         proto_args := [] |};
      {| proto_rtype := "vec4"; proto_name := "map_local_to_nd";
         proto_args := ["vec4"] |};
      {| proto_rtype := "void"; proto_name := "post_hook";
         proto_args := [] |} ]
  /\ prototypes fragment_shader
     = [ {| proto_rtype := "vec4"; proto_name := "frag_color";
            proto_args := [] |} ]
  /\ forall w p,
       reachable w ->
       opts.pos (_opts (self w)) = Some p ->
       fits p (opts.color (_opts (self w))) = true ->
       binds_three_hooks w.
Proof.
  split; [exact vertex_shader_prototypes |].
  split; [exact fragment_shader_prototypes |].
  intros w p Hr Hp Hfits. pose proof (reachable_consistent w Hr) as [Hv _].
  destruct w as [v ctx]. cbn [self] in *.
  eexists. eexists. exists (build_calls v p).
  split; [apply (_build_program_spec v ctx p Hv Hp Hfits) |].
  cbn [self gl after_build _program built_context journal].
  split; [reflexivity |]. split; [reflexivity |].
  split; [apply hook_names_build_calls |].
  rewrite assembled_local_position, assembled_map_local_to_nd,
    assembled_frag_color, assembled_post_hook.
  repeat split; eexists; reflexivity.
Qed.

Lemma hook_contract_witness :
  reachable line30
  /\ opts.pos (_opts (self line30)) = Some (zeros 30 2)
  /\ fits (zeros 30 2) (opts.color (_opts (self line30))) = true
  /\ binds_three_hooks line30.
Proof.
  split; [exact (reachable_constructed _ _ _) |].
  split; [reflexivity |]. split; [exact line30_fits |].
  destruct hook_contract as (_ & _ & H).
  exact (H line30 (zeros 30 2) (reachable_constructed _ _ _) eq_refl
           line30_fits).
Defined.

(** ** The end-to-end scenario *)

(** C4, as worded for every N, fails at N = 0: the visual built on
    [np.zeros((0, 2))] returns at the guard of paint, so no function is
    selected and no draw call is issued. *)
Lemma two_d_scenario_fails_without_rows :
  uniform None /\ ~ two_d_scenario 0 None None.
Proof.
  split; [exact I |]. intros H.
  destruct (H [] fresh_context)
    as (w0 & w1 & prog & f & g & calls & Hinit & Hpaint & Hprog & _).
  rewrite __init___spec in Hinit. injection Hinit as <-.
  rewrite paint_noop in Hpaint by reflexivity.
  injection Hpaint as <-. discriminate Hprog.
Qed.

(** C4, amended: for every LineVisual constructed on N >= 1
    two-dimensional positions, a uniform color and a width, paint selects
    the 2-D position function XYInputFunc and stages input_z_pos = 0.0,
    selects the uniform color function RGBAUniformFunc holding the default
    (1, 1, 1, 1) or the color given by the caller, and issues exactly one
    draw call, of kind LINE_STRIP. *)
Theorem two_d_uniform_scenario n color width :
  0 < n ->
  uniform color ->
  two_d_scenario n color width.
Proof.
  intros Hn Hu items ctx.
  set (p := {| nd_len := n; nd_inner := [2]; nd_items := items |}).
  rewrite __init___spec.
  set (v := {| _opts := updated (Some p) color width defaults;
               _program := None; _vbo := None; _data := None |}).
  assert (Hc : consistent {| self := v; gl := ctx |})
    by (split; intros x Hx; discriminate Hx).
  assert (Hd : drawable v p) by (split; [reflexivity | exact Hn]).
  assert (Hcolor : color_is_array (opts.color (_opts v)) = false).
  { cbn [v _opts updated opts.color]. destruct color as [c |].
    - exact Hu.
    - reflexivity. }
  assert (Hlast : shape_last p = 2) by reflexivity.
  assert (Hready : ready {| self := v; gl := ctx |} = true).
  { assert (Hfits : fits p (opts.color (_opts v)) = true)
      by (apply fits_uniform; [rewrite Hlast; lia | exact Hcolor]).
    unfold ready. cbn [self gl].
    change (opts.pos (_opts v)) with (Some p). cbv iota. rewrite Hfits.
    change (opts.transform (_opts v)) with NullTransform.
    apply orb_true_r. }
  eexists. eexists. eexists. eexists. eexists. exists (paint_calls v p).
  split; [reflexivity |].
  split; [apply (paint_spec v ctx p Hc Hd Hready) |].
  cbn [self gl painted painted_context _program journal].
  split; [reflexivity |].
  split; [apply assembled_local_position |].
  rewrite (position_function_two p _ Hlast).
  split; [reflexivity |].
  split; [reflexivity |].
  split; [apply assembled_frag_color |].
  unfold color_function. rewrite Hcolor.
  split; [reflexivity |].
  split; [destruct color; reflexivity |].
  split; [reflexivity |].
  rewrite filter_draw_paint_calls. destruct width; reflexivity.
Qed.

Lemma two_d_uniform_scenario_witness :
  0 < 30 /\ uniform None /\ two_d_scenario 30 None (Some 1%Q).
Proof.
  split; [lia |]. split; [exact I |].
  apply (two_d_uniform_scenario 30 None (Some 1%Q)); [lia | exact I].
Defined.
(** * Further properties of line.py *)

Import Usage.

(** ** set_data, the constructor and the transform *)

(** X1: two set_data calls in a row act as one call in which every field
    takes the value of the second call when it gives one, and else that of
    the first. *)
Theorem set_data_composes p1 c1 x1 p2 c2 x2 w :
  (run set_data p1 c1 x1; set_data p2 c2 x2) w
  = set_data (or_earlier p2 p1) (or_earlier c2 c1) (or_earlier x2 x1) w.
Proof.
  destruct w as [v ctx]. unfold bind.
  rewrite !set_data_spec. unfold updated, or_earlier.
  cbn [_opts _data opts.pos opts.color opts.width opts.transform].
  destruct p1, p2, c1, c2, x1, x2; reflexivity.
Qed.

(** X2: assigning a transform and calling set_data give the same visual in
    either order. *)
Theorem set_data_and_transform_commute tr pos color width w :
  (run set_transform tr; set_data pos color width) w
  = (run set_data pos color width; set_transform tr) w.
Proof.
  destruct w as [v ctx]. unfold bind.
  rewrite set_transform_spec, !set_data_spec, set_transform_spec.
  reflexivity.
Qed.

(** X3: LineVisual(pos, color, width) is LineVisual() followed by
    set_data(pos, color, width). *)
Theorem constructor_is_set_data_on_defaults pos color width ctx :
  __init__ pos color width ctx
  = match __init__ None None None ctx with
    | Ok (_, w) => set_data pos color width w
    | Raise e => Raise e
    end.
Proof.
  rewrite !__init___spec, set_data_spec. reflexivity.
Qed.

(** X4: the constructor, set_data and the transform setter make no call on
    gloo, gl or a program and leave the GL line width alone: all the work is
    left to paint. *)
Theorem setters_are_lazy pos color width tr :
  (forall ctx, exists w',
      __init__ pos color width ctx = Ok (tt, w') /\ gl w' = ctx)
  /\ (forall w, exists w',
      set_data pos color width w = Ok (tt, w') /\ gl w' = gl w)
  /\ (forall w, exists w',
      set_transform tr w = Ok (tt, w') /\ gl w' = gl w).
Proof.
  split; [| split].
  - intros ctx. eexists. split; [apply __init___spec | reflexivity].
  - intros [v ctx]. eexists. split; [apply set_data_spec | reflexivity].
  - intros [v ctx]. eexists. split; [apply set_transform_spec | reflexivity].
Qed.

(** X5: set_data never takes positions away: once pos is set it stays set
    whatever the arguments, None meaning "leave as it is". *)
Theorem set_data_never_unsets_positions pos color width w :
  is_Some (opts.pos (_opts (self w))) ->
  exists w',
    set_data pos color width w = Ok (tt, w')
    /\ is_Some (opts.pos (_opts (self w'))).
Proof.
  intros Hs. destruct w as [v ctx]. eexists. split; [apply set_data_spec |].
  cbn [self _opts updated opts.pos]. destruct pos; [eexists; reflexivity | exact Hs].
Qed.

Lemma set_data_never_unsets_positions_witness :
  is_Some (opts.pos (_opts (self line30)))
  /\ exists w',
       set_data None None None line30 = Ok (tt, w')
       /\ is_Some (opts.pos (_opts (self w'))).
Proof.
  assert (H : is_Some (opts.pos (_opts (self line30))))
    by (eexists; reflexivity).
  split; [exact H |].
  exact (set_data_never_unsets_positions None None None line30 H).
Defined.

(** X6: giving a position array without rows stops the drawing: after
    set_data with such an array, paint returns without a call and the
    visual stays without program. *)
Theorem empty_positions_stop_drawing p color width w :
  len p = 0 ->
  exists w',
    set_data (Some p) color width w = Ok (tt, w')
    /\ paint w' = Ok (tt, w')
    /\ _program (self w') = None.
Proof.
  intros Hz. destruct w as [v ctx]. eexists.
  split; [apply set_data_spec |]. split; [| reflexivity].
  apply paint_noop. cbn [self _opts updated opts.pos]. exact Hz.
Qed.

Lemma empty_positions_stop_drawing_witness :
  len (zeros 0 2) = 0
  /\ exists w',
       set_data (Some (zeros 0 2)) None None line30_painted = Ok (tt, w')
       /\ paint w' = Ok (tt, w')
       /\ _program (self w') = None.
Proof.
  split; [reflexivity |].
  exact (empty_positions_stop_drawing (zeros 0 2) None None line30_painted
           eq_refl).
Defined.

(** X7: the transform getter returns what the setter stored, without
    changing anything, and the next paint that draws (its arrays fit and
    the driver accepts the new transform) binds the map_local_to_nd hook
    to that transform. *)
Theorem assigned_transform_is_bound tr w :
  reachable w ->
  exists w1,
    set_transform tr w = Ok (tt, w1)
    /\ transform w1 = Ok (tr, w1)
    /\ forall p, drawable (self w1) p -> ready w1 = true ->
         exists w2 prog,
           paint w1 = Ok (tt, w2)
           /\ _program (self w2) = Some prog
           /\ compiled prog = true
           /\ hooks prog !! "map_local_to_nd"
              = Some (bind_map tr "map_local_to_nd").
Proof.
  intros Hr. pose proof (reachable_consistent w Hr) as Hc.
  destruct w as [v ctx].
  pose proof (set_transform_spec tr v ctx) as Hset.
  pose proof (consistent_set_transform tr _ _ Hc Hset) as Hc1.
  eexists. split; [exact Hset |]. split; [reflexivity |].
  intros p Hd Hready. eexists. eexists.
  split; [apply (paint_spec _ ctx p Hc1 Hd Hready) |].
  cbn [self painted _program]. split; [reflexivity |].
  split; [reflexivity |].
  apply assembled_map_local_to_nd.
Qed.

(** On the thirty-point line the snippet "scale", which the driver
    accepts, is bound by the next paint. *)
Lemma assigned_transform_is_bound_witness :
  reachable line30
  /\ exists w1 w2 prog,
       set_transform (GLSLTransform "scale") line30 = Ok (tt, w1)
       /\ transform w1 = Ok (GLSLTransform "scale", w1)
       /\ drawable (self w1) (zeros 30 2)
       /\ ready w1 = true
       /\ paint w1 = Ok (tt, w2)
       /\ _program (self w2) = Some prog
       /\ compiled prog = true
       /\ hooks prog !! "map_local_to_nd"
          = Some (bind_map (GLSLTransform "scale") "map_local_to_nd").
Proof.
  split; [exact (reachable_constructed _ _ _) |].
  destruct (assigned_transform_is_bound (GLSLTransform "scale") line30
              (reachable_constructed _ _ _)) as (w1 & Hset & Hget & Hnext).
  assert (E : w1 = with_transform (GLSLTransform "scale") line30)
    by (unfold with_transform; rewrite Hset; reflexivity).
  assert (Hd : drawable (self w1) (zeros 30 2))
    by (rewrite E; split; [reflexivity | cbn; lia]).
  assert (Hr : ready w1 = true) by (rewrite E; vm_compute; reflexivity).
  destruct (Hnext (zeros 30 2) Hd Hr) as (w2 & prog & H1 & H2 & H3 & H4).
  exists w1, w2, prog. repeat split; try assumption; apply Hd.
Defined.

(** ** paint *)

(** X8: a paint whose arrays fit and whose shaders the driver accepts
    returns, never changes an option and never drops a cache: the options
    are the same afterwards, a vertex buffer that was cached is still the
    cached one, and a program that was cached is still the cached one. *)
Theorem paint_keeps_options_and_caches w :
  reachable w ->
  ready w = true ->
  exists w',
    paint w = Ok (tt, w')
    /\ _opts (self w') = _opts (self w)
    /\ (forall vbo, _vbo (self w) = Some vbo -> _vbo (self w') = Some vbo)
    /\ (forall prog, _program (self w) = Some prog ->
          _program (self w') = Some prog).
Proof.
  intros Hr Hready. pose proof (reachable_consistent w Hr) as Hc.
  destruct (opts.pos (_opts (self w))) as [p |] eqn:Hp.
  - destruct (Nat.eq_dec (len p) 0) as [Hz | Hnz].
    + exists w. split; [apply paint_noop; rewrite Hp; exact Hz |]. auto.
    + destruct w as [v ctx]. cbn [self] in *.
      assert (Hd : drawable v p) by (split; [exact Hp | lia]).
      eexists. split; [apply (paint_spec v ctx p Hc Hd Hready) |].
      cbn [self painted _opts _vbo _program].
      split; [reflexivity |]. split.
      * intros vbo Hvbo. unfold buffer_for. rewrite Hvbo. reflexivity.
      * intros prog Hprog. unfold program_for. rewrite Hprog. reflexivity.
  - exists w. split; [apply paint_noop; rewrite Hp; exact I |]. auto.
Qed.

Lemma paint_keeps_options_and_caches_witness :
  reachable line30_painted
  /\ ready line30_painted = true
  /\ _vbo (self line30_painted) = Some line30_buffer
  /\ is_Some (_program (self line30_painted))
  /\ exists w',
       paint line30_painted = Ok (tt, w')
       /\ _opts (self w') = _opts (self line30_painted)
       /\ (forall vbo, _vbo (self line30_painted) = Some vbo ->
             _vbo (self w') = Some vbo)
       /\ (forall prog, _program (self line30_painted) = Some prog ->
             _program (self w') = Some prog).
Proof.
  split; [exact reachable_line30_painted |].
  split; [exact line30_painted_ready |].
  split; [exact line30_painted_buffer |].
  split; [exact line30_painted_built |].
  exact (paint_keeps_options_and_caches line30_painted
           reachable_line30_painted line30_painted_ready).
Defined.

(** X9: the vertex buffer holds copies, not the caller's arrays.  When
    the owner of the position array writes into it after the caches were
    built, the visual's pos option is the written array, while the cached
    vertex buffer, the staged array and the program are as before, and the
    next paint reuses them: it creates no vertex buffer, constructs and
    compiles nothing, and draws once, from the buffer staged before the
    write. *)
Theorem writes_do_not_reach_the_buffer items w p vbo prog :
  reachable w ->
  opts.pos (_opts (self w)) = Some p ->
  _vbo (self w) = Some vbo ->
  _program (self w) = Some prog ->
  exists w2 calls,
    reachable (caller_writes_pos items w)
    /\ opts.pos (_opts (self (caller_writes_pos items w)))
       = Some (written items p)
    /\ paint (caller_writes_pos items w) = Ok (tt, w2)
    /\ _vbo (self w2) = Some vbo
    /\ _program (self w2) = Some prog
    /\ _data (self w2) = _data (self w)
    /\ journal (gl w2) = journal (gl w) ++ calls
    /\ List.filter is_build calls = []
    /\ List.filter is_draw calls
       = [Draw "LINE_STRIP" (opts.width (_opts (self w)))].
Proof.
  intros Hr Hp Hvbo Hprog.
  pose proof (reach_write_pos items w Hr) as Hr1.
  pose proof (reachable_consistent _ Hr1) as Hc1.
  pose proof (reachable_consistent _ Hr) as [Hv Hpc].
  destruct (Hpc prog Hprog)
    as (p' & vbo' & o0 & Hp' & Hlen & _ & _ & _ & Hcomp & _).
  rewrite Hp in Hp'. injection Hp' as <-.
  destruct (Hv vbo Hvbo) as (p' & p0 & c0 & _ & _ & _ & Hvd & Hd).
  assert (Hready : ready (caller_writes_pos items w) = true)
    by (apply cached_program_ready; [exact Hc1 | eexists; exact Hprog]).
  destruct w as [v ctx]. cbn [self gl] in *.
  assert (Hpos : opts.pos (_opts (self (caller_writes_pos items
                                          {| self := v; gl := ctx |})))
                 = Some (written items p))
    by (cbn [self caller_writes_pos _opts opts.pos]; rewrite Hp; reflexivity).
  assert (Hdr : drawable (self (caller_writes_pos items
                                  {| self := v; gl := ctx |}))
                         (written items p))
    by (split; [exact Hpos | exact Hlen]).
  eexists. eexists.
  split; [exact Hr1 |]. split; [exact Hpos |].
  split; [exact (paint_spec _ _ _ Hc1 Hdr Hready) |].
  cbn [self gl caller_writes_pos painted painted_context _vbo _program _data
       _opts journal opts.width].
  unfold buffer_for, program_for, paint_calls, compile_calls.
  cbn [_vbo _program _opts opts.width]. rewrite Hvbo, Hprog.
  split; [reflexivity |]. split; [reflexivity |].
  split; [rewrite Hvd, Hd; reflexivity |].
  split; [reflexivity |].
  rewrite Hcomp. split; reflexivity.
Qed.

(** On the painted thirty-point line the buffer keeps the zeros it was
    staged from after the caller has written other values. *)
Lemma writes_do_not_reach_the_buffer_witness :
  reachable line30_painted
  /\ opts.pos (_opts (self line30_painted)) = Some (zeros 30 2)
  /\ _vbo (self line30_painted) = Some line30_buffer
  /\ (exists col,
        rec_columns (vb_data line30_buffer) !! "pos" = Some col
        /\ copied_from col = zeros 30 2
        /\ copied_from col <> written [1%Q; 2%Q] (zeros 30 2))
  /\ exists prog w2 calls,
       _program (self line30_painted) = Some prog
       /\ opts.pos (_opts (self (caller_writes_pos [1%Q; 2%Q] line30_painted)))
          = Some (written [1%Q; 2%Q] (zeros 30 2))
       /\ paint (caller_writes_pos [1%Q; 2%Q] line30_painted) = Ok (tt, w2)
       /\ _vbo (self w2) = Some line30_buffer
       /\ _program (self w2) = Some prog
       /\ List.filter is_build calls = [].
Proof.
  assert (Hp : opts.pos (_opts (self line30_painted)) = Some (zeros 30 2))
    by (vm_compute; reflexivity).
  split; [exact reachable_line30_painted |]. split; [exact Hp |].
  split; [exact line30_painted_buffer |].
  split.
  - eexists. split; [vm_compute; reflexivity |].
    split; [reflexivity |]. intros H. discriminate H.
  - destruct line30_painted_built as [prog Hprog]. exists prog.
    destruct (writes_do_not_reach_the_buffer [1%Q; 2%Q] line30_painted
                (zeros 30 2) line30_buffer prog reachable_line30_painted Hp
                line30_painted_buffer Hprog)
      as (w2 & calls & _ & H1 & H2 & H3 & H4 & _ & _ & H7 & _).
    exists w2, calls. repeat split; assumption.
Defined.

Lemma paints_when_built n v ctx0 p :
  consistent {| self := v; gl := ctx0 |} ->
  drawable v p ->
  ready {| self := v; gl := ctx0 |} = true ->
  forall ctx, driver ctx = driver ctx0 ->
  exists ctx' calls,
    paints n {| self := painted v ctx0 p; gl := ctx |}
    = Ok (tt, {| self := painted v ctx0 p; gl := ctx' |})
    /\ journal ctx' = journal ctx ++ calls
    /\ List.filter is_draw calls
       = repeat (Draw "LINE_STRIP" (opts.width (_opts v))) n
    /\ List.filter is_build calls = [].
Proof.
  intros Hc Hd Hready.
  destruct (ready_drawable {| self := v; gl := ctx0 |} p Hd Hready)
    as [Hfits Hacc].
  cbn [self gl] in Hfits, Hacc.
  assert (Hcons : forall ctx, driver ctx = driver ctx0 ->
            consistent {| self := painted v ctx0 p; gl := ctx |}).
  { intros ctx Hdrv.
    destruct (consistent_painted v ctx0 p Hc Hd Hready) as [Hv Hp].
    split; [exact Hv |]. intros prog Hprog.
    destruct (Hp prog Hprog)
      as (p' & vbo & o0 & H1 & H2 & H3 & Htr & Hk & H4 & H5).
    exists p', vbo, o0. cbn [self gl] in *.
    repeat split; try assumption.
    unfold accepted in *. cbn [painted _opts] in *.
    destruct (opts.transform (_opts v)); [reflexivity |].
    rewrite Hdrv. exact Hacc. }
  induction n as [| n IH]; intros ctx Hdrv.
  - exists ctx, []. rewrite app_nil_r. repeat split.
  - assert (Hd' : drawable (painted v ctx0 p) p) by exact Hd.
    assert (Hr' : ready {| self := painted v ctx0 p; gl := ctx |} = true)
      by (apply cached_program_ready;
          [apply Hcons; exact Hdrv | eexists; reflexivity]).
    pose proof (paint_spec (painted v ctx0 p) ctx p (Hcons ctx Hdrv) Hd' Hr')
      as Hone.
    assert (Hsame : painted (painted v ctx0 p) ctx p = painted v ctx0 p)
      by reflexivity.
    rewrite Hsame in Hone.
    destruct (IH (painted_context (painted v ctx0 p) ctx p) Hdrv)
      as (ctx' & calls & Hrun & Hj & Hdraws & Hbuilds).
    exists ctx'.
    exists ([LineWidth (opts.width (_opts v));
             Draw "LINE_STRIP" (opts.width (_opts v))] ++ calls).
    split.
    + cbn [paints]. unfold bind at 1. rewrite Hone. exact Hrun.
    + rewrite Hj. cbn [journal painted_context].
      unfold paint_calls, compile_calls. cbn [painted _program _opts].
      rewrite (program_for_compiled v ctx0 p Hc (proj1 Hd)).
      rewrite <- app_assoc.
      split; [reflexivity |].
      rewrite !List.filter_app, Hdraws, Hbuilds. split; reflexivity.
Qed.

Lemma no_build_no_parts calls :
  List.filter is_build calls = [] ->
  List.filter is_program_new calls = []
  /\ List.filter is_compile calls = []
  /\ List.filter is_vertex_buffer_new calls = [].
Proof.
  induction calls as [| c calls IH]; [repeat split |].
  cbn [List.filter]. destruct c; cbn [is_build]; try discriminate;
    intros H; apply IH in H; exact H.
Qed.

(** X10: any number n of paints in a row on a visual that has positions,
    whose arrays fit and whose shaders the driver accepts, issues exactly
    n LINE_STRIP draws, each under the current width, while at most one
    vertex buffer is created, at most one program constructed and at most
    one compilation run. *)
Theorem repeated_paints_build_once n w p :
  reachable w ->
  drawable (self w) p ->
  ready w = true ->
  exists w' calls,
    paints n w = Ok (tt, w')
    /\ journal (gl w') = journal (gl w) ++ calls
    /\ List.filter is_draw calls
       = repeat (Draw "LINE_STRIP" (opts.width (_opts (self w)))) n
    /\ length (List.filter is_vertex_buffer_new calls) <= 1
    /\ length (List.filter is_program_new calls) <= 1
    /\ length (List.filter is_compile calls) <= 1.
Proof.
  intros Hr Hd Hready. pose proof (reachable_consistent w Hr) as Hc.
  destruct w as [v ctx]. cbn [self gl] in *.
  destruct n as [| n].
  - eexists. exists []. rewrite app_nil_r. cbn. repeat split; lia.
  - pose proof (paint_spec v ctx p Hc Hd Hready) as Hone.
    destruct (paints_when_built n v ctx p Hc Hd Hready
                (painted_context v ctx p) eq_refl)
      as (ctx' & calls & Hrun & Hj & Hdraws & Hbuilds).
    destruct (no_build_no_parts calls Hbuilds) as (Hn1 & Hn2 & Hn3).
    eexists. exists (paint_calls v p ++ calls).
    split; [cbn [paints]; unfold bind at 1; rewrite Hone; exact Hrun |].
    cbn [self gl]. rewrite Hj. cbn [journal painted_context].
    rewrite <- app_assoc.
    split; [reflexivity |].
    rewrite !List.filter_app, !length_app, Hdraws, Hn1, Hn2, Hn3.
    rewrite filter_draw_paint_calls.
    split; [reflexivity |].
    unfold paint_calls, compile_calls, build_calls.
    destruct (_program v) as [prog |].
    + destruct (compiled prog); cbn; repeat split; lia.
    + destruct (_vbo v); cbn; repeat split; lia.
Qed.

Lemma repeated_paints_build_once_witness :
  reachable line30
  /\ drawable (self line30) (zeros 30 2)
  /\ ready line30 = true
  /\ exists w' calls,
       paints 5 line30 = Ok (tt, w')
       /\ journal (gl w') = journal (gl line30) ++ calls
       /\ List.filter is_draw calls
          = repeat (Draw "LINE_STRIP" (opts.width (_opts (self line30)))) 5
       /\ length (List.filter is_vertex_buffer_new calls) <= 1
       /\ length (List.filter is_program_new calls) <= 1
       /\ length (List.filter is_compile calls) <= 1.
Proof.
  assert (Hd : drawable (self line30) (zeros 30 2))
    by (split; [reflexivity | cbn; lia]).
  split; [exact (reachable_constructed _ _ _) |]. split; [exact Hd |].
  split; [exact line30_ready |].
  exact (repeated_paints_build_once 5 line30 (zeros 30 2)
           (reachable_constructed _ _ _) Hd line30_ready).
Defined.

(** ** The private methods out of order *)

(** X11: without positions nothing can be built: on a visual whose pos is
    None and that has no vertex buffer, _build_vbo and _build_program both
    raise AttributeError (pos.shape on None); only the guard of paint keeps
    them from being called. *)
Theorem build_without_positions_raises w :
  opts.pos (_opts (self w)) = None ->
  _vbo (self w) = None ->
  _build_vbo w = Raise AttributeError
  /\ _build_program w = Raise AttributeError.
Proof.
  intros Hp Hv. destruct w as [v ctx]. cbn [self] in *.
  assert (H : _build_vbo {| self := v; gl := ctx |} = Raise AttributeError).
  { unfold _build_vbo. unfold bind at 1, get at 1. cbn [self].
    unfold bind at 1. rewrite Hp. reflexivity. }
  split; [exact H |].
  unfold _build_program. unfold bind at 1, get at 1. cbn [self].
  rewrite Hv. unfold bind at 1. rewrite H. reflexivity.
Qed.

Lemma build_without_positions_raises_witness :
  opts.pos (_opts (self (constructed None None None))) = None
  /\ _vbo (self (constructed None None None)) = None
  /\ _build_vbo (constructed None None None) = Raise AttributeError
  /\ _build_program (constructed None None None) = Raise AttributeError.
Proof.
  split; [reflexivity |]. split; [reflexivity |].
  exact (build_without_positions_raises (constructed None None None)
           eq_refl eq_refl).
Defined.

(** X12: the two selection methods read [self._data], which only
    _build_vbo assigns: on a visual that has never staged its data,
    _get_position_function and _get_color_func raise AttributeError. *)
Theorem selection_before_staging_raises w :
  _data (self w) = None ->
  _get_position_function w = Raise AttributeError
  /\ _get_color_func w = Raise AttributeError.
Proof.
  intros Hd. destruct w as [v ctx]. cbn [self] in Hd.
  unfold _get_position_function, _get_color_func.
  unfold bind at 1, get at 1. cbn [self]. unfold bind at 1. rewrite Hd.
  split; [reflexivity |].
  unfold bind at 1, get at 1. cbn [self]. unfold bind at 1. rewrite Hd.
  reflexivity.
Qed.

Lemma selection_before_staging_raises_witness :
  _data (self line30) = None
  /\ _get_position_function line30 = Raise AttributeError
  /\ _get_color_func line30 = Raise AttributeError.
Proof.
  split; [reflexivity |].
  exact (selection_before_staging_raises line30 eq_refl).
Defined.

(** ** What a build stages *)

(** X13: the value slots of the position function, on arrays that can be
    staged.  With 2 components the function reads the 'pos' column of the
    vertex buffer and the depth 0.0; with more than 2 components (3, and
    also 4 or more) the build takes the else branch: XYZInputFunc, a vec3
    attribute, whose slot holds the whole vertex buffer rather than its
    'pos' column. *)
Theorem position_function_slots w p :
  reachable w ->
  opts.pos (_opts (self w)) = Some p ->
  fits p (opts.color (_opts (self w))) = true ->
  exists w' prog vbo f,
    _build_program w = Ok (tt, w')
    /\ _program (self w') = Some prog
    /\ _vbo (self w') = Some vbo
    /\ hooks prog !! "local_position" = Some f
    /\ (shape_last p = 2 ->
        fn_slots f !! "input_xy_pos" = Some (BufferField vbo "pos")
        /\ fn_slots f !! "input_z_pos" = Some (Scalar 0%Q))
    /\ (2 < shape_last p ->
        fn_origin f = OfTemplate XYZInputFunc
        /\ fn_slots f !! "input_xyz_pos" = Some (Buffer vbo)
        /\ attribute_arity f = 3).
Proof.
  intros Hr Hp Hfits. pose proof (reachable_consistent w Hr) as [Hv _].
  destruct w as [v ctx]. cbn [self] in *.
  eexists. eexists. eexists. eexists.
  split; [apply (_build_program_spec v ctx p Hv Hp Hfits) |].
  cbn [self after_build _program _vbo].
  split; [reflexivity |]. split; [reflexivity |].
  split; [apply assembled_local_position |].
  split.
  - intros H. rewrite (position_function_two p _ H).
    unfold xy_function. cbn [fn_slots]. split; by simplify_map_eq.
  - intros H. rewrite (position_function_more p _ H).
    split; [reflexivity |].
    split; [unfold xyz_function; cbn [fn_slots]; by simplify_map_eq |].
    apply xyz_function_arity.
Qed.

Lemma position_function_slots_witness :
  reachable colored30
  /\ opts.pos (_opts (self colored30)) = Some (zeros 30 3)
  /\ fits (zeros 30 3) (opts.color (_opts (self colored30))) = true
  /\ 2 < shape_last (zeros 30 3)
  /\ exists w' prog vbo f,
       _build_program colored30 = Ok (tt, w')
       /\ _program (self w') = Some prog
       /\ _vbo (self w') = Some vbo
       /\ hooks prog !! "local_position" = Some f
       /\ (shape_last (zeros 30 3) = 2 ->
           fn_slots f !! "input_xy_pos" = Some (BufferField vbo "pos")
           /\ fn_slots f !! "input_z_pos" = Some (Scalar 0%Q))
       /\ (2 < shape_last (zeros 30 3) ->
           fn_origin f = OfTemplate XYZInputFunc
           /\ fn_slots f !! "input_xyz_pos" = Some (Buffer vbo)
           /\ attribute_arity f = 3).
Proof.
  split; [exact (reachable_constructed _ _ _) |]. split; [reflexivity |].
  split; [exact colored30_fits |]. split; [cbn; lia |].
  exact (position_function_slots colored30 (zeros 30 3)
           (reachable_constructed _ _ _) eq_refl colored30_fits).
Defined.

(** X14: the rebuild that set_data forces is a real one.  On a built
    visual, set_data with only a width followed by paint creates a new
    vertex buffer, an object other than the one cached before, staged from
    the position and color arrays as they are at that paint, and leaves a
    new compiled program over that new buffer. *)
Theorem width_change_restages w wd p vbo :
  reachable w ->
  opts.pos (_opts (self w)) = Some p ->
  _vbo (self w) = Some vbo ->
  is_Some (_program (self w)) ->
  exists w1 w2 vbo' calls,
    set_data None None (Some wd) w = Ok (tt, w1)
    /\ paint w1 = Ok (tt, w2)
    /\ _vbo (self w2) = Some vbo'
    /\ vbo' <> vbo
    /\ vb_data vbo' = staged p (opts.color (_opts (self w)))
    /\ _program (self w2) = Some (assembled (_opts (self w1)) p vbo' true)
    /\ journal (gl w2) = journal (gl w) ++ calls
    /\ In (VertexBufferNew (vb_data vbo')) calls.
Proof.
  intros Hr Hp Hvbo Hbuilt.
  pose proof (reachable_consistent w Hr) as Hc.
  pose proof (reachable_buffer_known w Hr vbo Hvbo) as Hid.
  pose proof (cached_program_ready w Hc Hbuilt) as Hready.
  destruct Hbuilt as [prog Hprog]. destruct Hc as [_ Hpc].
  destruct (Hpc prog Hprog) as (p' & vbo0 & o0 & Hp' & Hlen & _).
  rewrite Hp in Hp'. injection Hp' as <-.
  destruct w as [v ctx]. cbn [self gl] in *.
  pose proof (set_data_spec None None (Some wd) v ctx) as Hset.
  pose proof (consistent_set_data _ _ _ _ _ Hset) as Hc1.
  match type of Hset with _ = Ok (_, {| self := ?v1; gl := _ |}) =>
    set (v1' := v1) in *
  end.
  assert (Hd : drawable v1' p) by (split; [exact Hp | exact Hlen]).
  assert (Hr1 : ready {| self := v1'; gl := ctx |} = true) by exact Hready.
  eexists. eexists. eexists. exists (paint_calls v1' p).
  split; [exact Hset |].
  split; [exact (paint_spec v1' ctx p Hc1 Hd Hr1) |].
  cbn [self gl painted painted_context _vbo _program journal].
  unfold buffer_for, program_for. cbn [v1' _vbo _program vb_data].
  split; [reflexivity |].
  split; [intros E; rewrite <- E in Hid; cbn [vb_id] in Hid; lia |].
  split; [reflexivity |]. split; [reflexivity |]. split; [reflexivity |].
  unfold paint_calls, build_calls. cbn [v1' _program _vbo].
  rewrite in_app_iff. left. rewrite in_app_iff. left. left. reflexivity.
Qed.

Lemma width_change_restages_witness :
  reachable line30_painted
  /\ opts.pos (_opts (self line30_painted)) = Some (zeros 30 2)
  /\ _vbo (self line30_painted) = Some line30_buffer
  /\ is_Some (_program (self line30_painted))
  /\ exists w1 w2 vbo' calls,
       set_data None None (Some 3%Q) line30_painted = Ok (tt, w1)
       /\ paint w1 = Ok (tt, w2)
       /\ _vbo (self w2) = Some vbo'
       /\ vbo' <> line30_buffer
       /\ vb_data vbo'
          = staged (zeros 30 2) (opts.color (_opts (self line30_painted)))
       /\ _program (self w2)
          = Some (assembled (_opts (self w1)) (zeros 30 2) vbo' true)
       /\ journal (gl w2) = journal (gl line30_painted) ++ calls
       /\ In (VertexBufferNew (vb_data vbo')) calls.
Proof.
  assert (Hp : opts.pos (_opts (self line30_painted)) = Some (zeros 30 2))
    by (vm_compute; reflexivity).
  split; [exact reachable_line30_painted |]. split; [exact Hp |].
  split; [exact line30_painted_buffer |].
  split; [exact line30_painted_built |].
  exact (width_change_restages line30_painted 3%Q (zeros 30 2) line30_buffer
           reachable_line30_painted Hp line30_painted_buffer
           line30_painted_built).
Defined.

(** X15: new positions are the ones drawn.  Whatever the visual held
    before, after set_data with a position array of at least one row that
    can be staged with the color then in force, under a transform the
    driver accepts, the next paint creates a new vertex buffer whose array
    has the rows of that position array and holds a float32 copy of it as
    its 'pos' column, and draws once. *)
Theorem new_positions_are_staged p color width w :
  0 < len p ->
  fits p (match color with
          | Some c => c
          | None => opts.color (_opts (self w))
          end) = true ->
  accepted (gl w) (opts.transform (_opts (self w))) = true ->
  exists w1 w2 vbo col calls,
    set_data (Some p) color width w = Ok (tt, w1)
    /\ paint w1 = Ok (tt, w2)
    /\ _vbo (self w2) = Some vbo
    /\ vb_id vbo = created (gl w)
    /\ created (gl w2) = S (created (gl w))
    /\ rec_shape (vb_data vbo) = shape_init p
    /\ rec_columns (vb_data vbo) !! "pos" = Some col
    /\ copied_from col = p
    /\ stored_shape col = pos_view p
    /\ journal (gl w2) = journal (gl w) ++ calls
    /\ In (VertexBufferNew (vb_data vbo)) calls
    /\ length (List.filter is_draw calls) = 1.
Proof.
  intros Hlen Hfits Hacc. destruct w as [v ctx]. cbn [self gl] in *.
  pose proof (set_data_spec (Some p) color width v ctx) as Hset.
  pose proof (consistent_set_data _ _ _ _ _ Hset) as Hc1.
  match type of Hset with _ = Ok (_, {| self := ?v1; gl := _ |}) =>
    set (v1' := v1) in *
  end.
  assert (Hd : drawable v1' p) by (split; [reflexivity | exact Hlen]).
  assert (Hready : ready {| self := v1'; gl := ctx |} = true).
  { unfold ready. cbn [self gl].
    change (opts.pos (_opts v1')) with (Some p). cbv iota.
    change (opts.color (_opts v1'))
      with (match color with Some c => c | None => opts.color (_opts v) end).
    rewrite Hfits.
    change (opts.transform (_opts v1')) with (opts.transform (_opts v)).
    rewrite Hacc. apply orb_true_r. }
  pose proof (paint_spec v1' ctx p Hc1 Hd Hready) as Hpaint.
  exists {| self := v1'; gl := ctx |}. eexists. eexists. eexists.
  exists (paint_calls v1' p).
  split; [exact Hset |]. split; [exact Hpaint |].
  cbn [self gl painted painted_context _vbo journal created].
  unfold buffer_for, buffers_after. cbn [v1' _vbo vb_id vb_data].
  split; [reflexivity |]. split; [reflexivity |]. split; [reflexivity |].
  split; [reflexivity |].
  split.
  { unfold staged. cbn [rec_columns].
    match goal with |- context [color_is_array ?c] =>
      destruct (color_is_array c) end; by simplify_map_eq. }
  split; [reflexivity |]. split; [reflexivity |]. split; [reflexivity |].
  split.
  - unfold paint_calls, build_calls. cbn [v1' _program _vbo].
    rewrite in_app_iff. left. rewrite in_app_iff. left. left. reflexivity.
  - rewrite filter_draw_paint_calls. reflexivity.
Qed.

Lemma line30_painted_accepts :
  accepted (gl line30_painted) (opts.transform (_opts (self line30_painted)))
  = true.
Proof. vm_compute. reflexivity. Qed.

Lemma new_positions_fit :
  fits (zeros 10 3) (opts.color (_opts (self line30_painted))) = true.
Proof. vm_compute. reflexivity. Qed.

Lemma new_positions_are_staged_witness :
  0 < len (zeros 10 3)
  /\ fits (zeros 10 3) (opts.color (_opts (self line30_painted))) = true
  /\ accepted (gl line30_painted)
       (opts.transform (_opts (self line30_painted))) = true
  /\ exists w1 w2 vbo col calls,
       set_data (Some (zeros 10 3)) None None line30_painted = Ok (tt, w1)
       /\ paint w1 = Ok (tt, w2)
       /\ _vbo (self w2) = Some vbo
       /\ vb_id vbo = created (gl line30_painted)
       /\ created (gl w2) = S (created (gl line30_painted))
       /\ rec_shape (vb_data vbo) = shape_init (zeros 10 3)
       /\ rec_columns (vb_data vbo) !! "pos" = Some col
       /\ copied_from col = zeros 10 3
       /\ stored_shape col = pos_view (zeros 10 3)
       /\ journal (gl w2) = journal (gl line30_painted) ++ calls
       /\ In (VertexBufferNew (vb_data vbo)) calls
       /\ length (List.filter is_draw calls) = 1.
Proof.
  assert (H : 0 < len (zeros 10 3)) by (cbn; lia).
  split; [exact H |]. split; [exact new_positions_fit |].
  split; [exact line30_painted_accepts |].
  exact (new_positions_are_staged (zeros 10 3) None None line30_painted H
           new_positions_fit line30_painted_accepts).
Defined.

(** ** When paint raises *)

(** X16: on a LineVisual that has something to draw, paint returns
    exactly when what it needs goes through: a cached vertex buffer and
    program are reused as they are, and what is missing must be staged
    (the arrays fit) and compiled (the driver accepts the transform);
    otherwise paint raises. *)
Theorem paint_returns_iff_ready w p :
  reachable w ->
  drawable (self w) p ->
  (ready w = true -> exists w', paint w = Ok (tt, w'))
  /\ (ready w = false -> exists e, paint w = Raise e).
Proof.
  intros Hr Hd. pose proof (reachable_consistent w Hr) as Hc.
  destruct w as [v ctx]. cbn [self] in Hd. split; intros Hready.
  - eexists. exact (paint_spec v ctx p Hc Hd Hready).
  - exact (paint_not_ready v ctx p Hc Hd Hready).
Qed.

Lemma mismatched_not_ready : ready mismatched = false.
Proof. vm_compute. reflexivity. Qed.

Lemma paint_returns_iff_ready_witness :
  (reachable line30 /\ drawable (self line30) (zeros 30 2)
   /\ ready line30 = true /\ exists w', paint line30 = Ok (tt, w'))
  /\ (reachable mismatched /\ drawable (self mismatched) (zeros 3 2)
      /\ ready mismatched = false /\ exists e, paint mismatched = Raise e).
Proof.
  assert (Hd : drawable (self line30) (zeros 30 2))
    by (split; [reflexivity | cbn; lia]).
  assert (Hm : drawable (self mismatched) (zeros 3 2))
    by (split; [reflexivity | cbn; lia]).
  split.
  - split; [exact (reachable_constructed _ _ _) |]. split; [exact Hd |].
    split; [exact line30_ready |].
    exact (proj1 (paint_returns_iff_ready line30 (zeros 30 2)
                    (reachable_constructed _ _ _) Hd) line30_ready).
  - split; [exact (reachable_constructed _ _ _) |]. split; [exact Hm |].
    split; [exact mismatched_not_ready |].
    exact (proj2 (paint_returns_iff_ready mismatched (zeros 3 2)
                    (reachable_constructed _ _ _) Hm) mismatched_not_ready).
Defined.

(** X17: the shapes the docstring of set_data names can always be staged:
    positions of shape (N, 2) or (N, 3) fit with any uniform color, and
    with a color array of shape (N, 3) or (N, 4) that has one row per
    position; with a color array of another number of rows M (M not 1)
    _build_vbo raises ValueError. *)
Theorem docstring_shapes_fit n k items :
  k = 2 \/ k = 3 ->
  let p := {| nd_len := n; nd_inner := [k]; nd_items := items |} in
  (forall c, color_is_array c = false -> fits p c = true)
  /\ (forall m colors,
        m = 3 \/ m = 4 ->
        fits p (ColorArray {| nd_len := n; nd_inner := [m];
                              nd_items := colors |}) = true)
  /\ (forall rows m colors v ctx,
        m = 3 \/ m = 4 ->
        rows <> n -> rows <> 1 ->
        opts.pos (_opts v) = Some p ->
        opts.color (_opts v)
        = ColorArray {| nd_len := rows; nd_inner := [m];
                        nd_items := colors |} ->
        _build_vbo {| self := v; gl := ctx |} = Raise ValueError).
Proof.
  intros Hk p.
  assert (Hlast : shape_last p = k) by reflexivity.
  assert (Hwide : shape_last p <> 1) by (rewrite Hlast; lia).
  split; [| split].
  - intros c Hc. exact (fits_uniform p c Hwide Hc).
  - intros m colors Hm. apply fits_per_vertex.
    + exact Hwide.
    + change (m <> 1). lia.
    + reflexivity.
  - intros rows m colors v ctx Hm Hrows Hone Hp Hcol.
    rewrite (_build_vbo_outcome v ctx p Hp), Hcol.
    assert (Hst : stageable p (ColorArray {| nd_len := rows; nd_inner := [m];
                                             nd_items := colors |}) = false).
    { unfold stageable. rewrite (pos_view_wide p Hwide), assignable_refl.
      cbn [andb color_is_array ndim shape nd_len nd_inner length np_array].
      change (1 <? 2) with true. cbv iota.
      unfold color_view, view_shape, subshape, shape_init, shape_last, shape.
      cbn [nd_len nd_inner removelast last default from_option].
      destruct (m =? 1) eqn:E; [apply Nat.eqb_eq in E; lia |].
      destruct (rows =? n) eqn:E1; [apply Nat.eqb_eq in E1; contradiction |].
      destruct (rows =? 1) eqn:E2; [apply Nat.eqb_eq in E2; contradiction |].
      unfold assignable, id. subst p. simpl. rewrite E. simpl.
      rewrite Nat.eqb_refl, E1, E2. reflexivity. }
    rewrite Hst. reflexivity.
Qed.

Lemma docstring_shapes_fit_witness :
  (2 = 2 \/ 2 = 3)
  /\ fits (zeros 30 2) (ColorArray (zeros 30 4)) = true
  /\ _build_vbo mismatched = Raise ValueError.
Proof.
  split; [left; reflexivity |].
  destruct (docstring_shapes_fit 3 2 (repeat 0%Q 6) (or_introl eq_refl))
    as (_ & _ & Hraise).
  destruct (docstring_shapes_fit 30 2 (repeat 0%Q 60) (or_introl eq_refl))
    as (_ & Hfit & _).
  split.
  - exact (Hfit 4 (repeat 0%Q 120) (or_intror eq_refl)).
  - exact (Hraise 2 4 (repeat 0%Q 8) (self mismatched) (gl mismatched)
             (or_intror eq_refl) ltac:(discriminate) ltac:(discriminate)
             eq_refl eq_refl).
Defined.
